(** * postgres-connect-go: the bulk upsert pipeline of package [db]

    A shallow embedding of [db/db.go]: the merge statement builder, the
    staging-table name, the three coercion passes over loosely typed
    records, the bulk-load cursor and the transaction orchestration of
    [InsertBulkData].

    Go maps [map[string]interface{}] are [gmap string Value]; slices are
    lists; [fmt.Sprintf] with [%s] verbs is string concatenation. The file
    first gives the embedding, then the properties. *)

From Stdlib Require Import ZArith Ascii String DecimalString.
From stdpp Require Import gmap strings list fin_maps.

(** * Part I: the embedding *)

(** ** Package [strings] *)

Module strings.

(** [strings.Join(elems, sep)] *)
Fixpoint Join (elems : list string) (sep : string) : string :=
  match elems with
  | [] => ""
  | [x] => x
  | x :: rest => x +:+ sep +:+ Join rest sep
  end.

(** [strings.ReplaceAll(s, old, new)] for a one-byte [old], the only way
    the package calls it ([old = "-"]): every occurrence of the byte is
    replaced by [new], left to right. *)
Fixpoint ReplaceAll (s : string) (old : ascii) (new : string) : string :=
  match s with
  | EmptyString => EmptyString
  | String c rest =>
      if Ascii.eqb c old then new +:+ ReplaceAll rest old new
      else String c (ReplaceAll rest old new)
  end.

End strings.

(** ** The merge statement *)

(** [contains] checks if a string is present in a slice. *)
Fixpoint contains (slice : list string) (item : string) : bool :=
  match slice with
  | [] => false
  | s :: rest => if String.eqb s item then true else contains rest item
  end.

(** [fmt.Sprintf("%s = EXCLUDED.%s", col, col)] *)
Definition excludedAssignment (col : string) : string :=
  col +:+ " = EXCLUDED." +:+ col.

(** The loop of [buildUpdateValuesWithExcluded]: one step per column,
    appending to [updateAssignments]. *)
Definition updateAssignmentsStep (primaryKey : list string)
    (updateAssignments : list string) (col : string) : list string :=
  if negb (contains primaryKey col)
  then updateAssignments ++ [excludedAssignment col]
  else updateAssignments.

Definition updateAssignmentsOf (columns primaryKey : list string) : list string :=
  fold_left (updateAssignmentsStep primaryKey) columns [].

Definition buildUpdateValuesWithExcluded (columns primaryKey : list string) : string :=
  strings.Join (updateAssignmentsOf columns primaryKey) ", ".

(** The [insertStmt] local of [InsertBulkData]. *)
Definition insertStmt (table : string) (columns : list string)
    (tempTable : string) (primaryKey : list string) : string :=
  "INSERT INTO " +:+ table +:+ " (" +:+ strings.Join columns ", "
  +:+ ") SELECT DISTINCT " +:+ strings.Join columns ", "
  +:+ " FROM " +:+ tempTable
  +:+ " ON CONFLICT (" +:+ strings.Join primaryKey ", "
  +:+ ") DO UPDATE SET " +:+ buildUpdateValuesWithExcluded columns primaryKey.

(** The statement that clones the target table's structure. *)
Definition createTempStmt (tempTable table : string) : string :=
  "CREATE TEMPORARY TABLE " +:+ tempTable +:+ " AS TABLE " +:+ table
  +:+ " WITH NO DATA".

(** ** The staging-table name *)

(** Package [github.com/google/uuid]: [type UUID [16]byte], and [String]
    writing the canonical [xxxxxxxx-xxxx-xxxx-xxxx-xxxxxxxxxxxx] form through
    [encoding/hex]. A value of [UUID] is a list of bytes of length 16. *)
Module uuid.

Definition UUID := list Byte.byte.

Definition wf (u : UUID) : Prop := length u = 16.

Definition hextable : string := "0123456789abcdef".

Definition hexdigit (n : N) : ascii :=
  default "0"%char (String.get (N.to_nat n) hextable).

(** [hex.Encode]: two digits per byte, high nibble first. *)
Fixpoint hexEncode (src : list Byte.byte) : string :=
  match src with
  | [] => EmptyString
  | v :: rest =>
      String (hexdigit (N.shiftr (Byte.to_N v) 4))
        (String (hexdigit (N.land (Byte.to_N v) 15)) (hexEncode rest))
  end.

(** [encodeHex] followed by the conversion to string. *)
Definition String (u : UUID) : string :=
  hexEncode (take 4 u) +:+ "-" +:+
  hexEncode (take 2 (drop 4 u)) +:+ "-" +:+
  hexEncode (take 2 (drop 6 u)) +:+ "-" +:+
  hexEncode (take 2 (drop 8 u)) +:+ "-" +:+
  hexEncode (drop 10 u).

End uuid.

(** [generateUniqueTempTableName], with the result of [uuid.New()] as an
    argument: the random source is outside the package. *)
Definition generateUniqueTempTableName (uniqueID : uuid.UUID) (table : string) : string :=
  let cleanedUUID := strings.ReplaceAll (uuid.String uniqueID) "-" "" in
  "temp_" +:+ table +:+ "_" +:+ cleanedUUID.

Definition isHexDigit (c : ascii) : bool :=
  let n := Ascii.N_of_ascii c in
  ((48 <=? n) && (n <=? 57) || (97 <=? n) && (n <=? 102))%N.

(** The digit's value, for digits of [hextable]. *)
Definition unhex (c : ascii) : N :=
  let n := Ascii.N_of_ascii c in
  (if n <=? 57 then n - 48 else n - 87)%N.

(** ** Dynamic values *)

(** [time.Time] and [float64] are moved around by the package and never
    inspected: a [Time] is the runtime's triple, a [float64] its IEEE-754
    bit pattern ([math.Float64bits]). *)
Record Time := { wall : Z; ext : Z; loc : string }.

Record float64 := Float64frombits { Float64bits : Z }.

(** [decimal.Decimal] of [github.com/shopspring/decimal]. *)
Record Decimal := { Decimal_value : Z; Decimal_exp : Z }.

(** Go's [error] values, as far as the package tells them apart. *)
Inductive error :=
| EOF                              (* io.EOF *)
| ErrTxClosed                      (* pgx.ErrTxClosed *)
| PgError (msg : string)           (* *pgconn.PgError *)
| errorString (msg : string).      (* any other error *)

(** [err.Error()] *)
Definition Error (err : error) : string :=
  match err with
  | EOF => "EOF"
  | ErrTxClosed => "tx is closed"
  | PgError msg => msg
  | errorString msg => msg
  end.

(** Package [github.com/jackc/pgtype]: values tagged with a [Status]. *)
Module pgtype.

Inductive Status := Undefined | Null | Present.

Record Timestamptz := { Timestamptz_Time : Time; Timestamptz_Status : Status }.
Record Float8 := { Float8_Float : float64; Float8_Status : Status }.
Record Int4 := { Int4_Int : Z; Int4_Status : Status }.
Record Bool := { Bool_Bool : bool; Bool_Status : Status }.
Record Text := { Text_String : string; Text_Status : Status }.
Record Numeric :=
  { Numeric_Int : Z; Numeric_Exp : Z; Numeric_Status : Status; Numeric_NaN : bool }.

End pgtype.

(** A value of type [interface{}]: the dynamic types of the data model, the
    six driver types the passes name, and [VPgOther] for a value of any
    other driver type that carries a [Status] ([pgtype.Int8], [pgtype.Date],
    ...), by the name of its type. *)
Inductive Value :=
| VNil
| VBool (b : bool)
| VInt (n : Z)                     (* int *)
| VInt32 (n : Z)                   (* int32 *)
| VInt64 (n : Z)                   (* int64 *)
| VFloat64 (f : float64)
| VDecimal (d : Decimal)
| VString (s : string)
| VTime (t : Time)
| VBytes (b : list Byte.byte)
| VTimestamptz (v : pgtype.Timestamptz)
| VFloat8 (v : pgtype.Float8)
| VInt4 (v : pgtype.Int4)
| VPgBool (v : pgtype.Bool)
| VText (v : pgtype.Text)
| VNumeric (v : pgtype.Numeric)
| VPgOther (name : string) (status : pgtype.Status).

(** A record, [map[string]interface{}]. *)
Abbreviation Row := (gmap string Value).

(** [row[col]]: a missing key reads as the nil interface. *)
Definition index (row : Row) (col : string) : Value :=
  default VNil (row !! col).

(** The conversion [int32(v)] of an [int]: the low 32 bits, signed. *)
Definition int32 (v : Z) : Z :=
  (v + 2 ^ 31) mod 2 ^ 32 - 2 ^ 31.

(** The conversion [int(v)] of an [int32] on a 64-bit platform. *)
Definition int (v : Z) : Z := v.

(** A value of one of the six driver types the passes name, each carrying
    a [Status] tag, and the tag of such a value. *)
Definition isTagged (v : Value) : bool :=
  match v with
  | VTimestamptz _ | VFloat8 _ | VInt4 _ | VPgBool _ | VText _ | VNumeric _ => true
  | _ => false
  end.

Definition statusOf (v : Value) : option pgtype.Status :=
  match v with
  | VTimestamptz x => Some (pgtype.Timestamptz_Status x)
  | VFloat8 x => Some (pgtype.Float8_Status x)
  | VInt4 x => Some (pgtype.Int4_Status x)
  | VPgBool x => Some (pgtype.Bool_Status x)
  | VText x => Some (pgtype.Text_Status x)
  | VNumeric x => Some (pgtype.Numeric_Status x)
  | _ => None
  end.

(** The dynamic types the type switch of [formatToBinaryData] names. *)
Definition switched (v : Value) : bool :=
  match v with
  | VTime _ | VFloat64 _ | VInt _ | VBool _ | VString _ => true
  | _ => false
  end.

(** ** The library functions the passes call *)

(** The standard library and the driver are outside the package; the
    passes are given their functions. A result [inl x] is [(x, nil)], a
    result [inr err] is a non-nil error. *)
Class Externals := {
  (* time.Parse(time.RFC3339, s) *)
  time_Parse_RFC3339 : string → Time + error;
  (* t.Format(time.RFC3339) *)
  Time_Format_RFC3339 : Time → string;
  (* strconv.ParseFloat(s, 64) *)
  strconv_ParseFloat : string → float64 + error;
  (* (pgtype.Numeric).Value(), a driver.Value holding a string *)
  Numeric_Value : pgtype.Numeric → string + error;
  (* decimal.NewFromString(s) *)
  decimal_NewFromString : string → Decimal + error;
  (* (decimal.Decimal).Float64(), the exactness flag dropped *)
  Decimal_Float64 : Decimal → float64;
}.

(** ** The coercion passes *)

Definition newline : string := String "010"%char EmptyString.

(** *** [formatTimestamps], the stringify pass *)

(** The body of the loop over [columnOrder]. *)
Definition formatTimestampsStep `{!Externals} (row newRow : Row) (col : string) : Row :=
  match index row col with
  | VTime timestamp => <[col := VString (Time_Format_RFC3339 timestamp)]> newRow
  | VString strNum =>
      match strconv_ParseFloat strNum with
      | inl num => <[col := VFloat64 num]> newRow
      | inr _ => <[col := index row col]> newRow
      end
  | _ => <[col := index row col]> newRow
  end.

(** [newData[i]] is the [newRow] built from [data[i]]. *)
Definition formatTimestamps `{!Externals} (data : list Row) (columnOrder : list string) : list Row :=
  (λ row, fold_left (formatTimestampsStep row) columnOrder ∅) <$> data.

(** *** [formatToBinaryData], the main coercion pass *)

(** The passes print to standard output; a pass returns the lines it
    printed next to its result. The body of the loop over [columnOrder]:
    the type switch on [row[col]], [continue] leaving [newRow] as it is. *)
Definition formatToBinaryDataStep `{!Externals} (row : Row)
    (st : Row * list string) (col : string) : Row * list string :=
  let '(newRow, stdout) := st in
  match index row col with
  | VTime v =>
      (<[col := VTimestamptz
                  {| pgtype.Timestamptz_Time := v;
                     pgtype.Timestamptz_Status := pgtype.Present |}]> newRow, stdout)
  | VFloat64 v =>
      (<[col := VFloat8
                  {| pgtype.Float8_Float := v;
                     pgtype.Float8_Status := pgtype.Present |}]> newRow, stdout)
  | VInt v => (<[col := VInt32 (int32 v)]> newRow, stdout)
  | VBool v =>
      (<[col := VPgBool
                  {| pgtype.Bool_Bool := v;
                     pgtype.Bool_Status := pgtype.Present |}]> newRow, stdout)
  | VString v =>
      if String.eqb col "time" then
        match time_Parse_RFC3339 v with
        | inr err =>
            (newRow, stdout ++ ["Error parsing time: " +:+ Error err +:+ newline])
        | inl t =>
            (<[col := VTimestamptz
                        {| pgtype.Timestamptz_Time := t;
                           pgtype.Timestamptz_Status := pgtype.Present |}]> newRow, stdout)
        end
      else
        (<[col := VText
                    {| pgtype.Text_String := v;
                       pgtype.Text_Status := pgtype.Present |}]> newRow, stdout)
  | _ => (<[col := index row col]> newRow, stdout)
  end.

(** The body of the loop over [data]. *)
Definition formatToBinaryDataRow `{!Externals} (columnOrder : list string)
    (st : list Row * list string) (row : Row) : list Row * list string :=
  let '(newData, stdout) := st in
  let '(newRow, stdout') :=
    fold_left (formatToBinaryDataStep row) columnOrder (∅, stdout) in
  (newData ++ [newRow], stdout').

Definition formatToBinaryData `{!Externals} (data : list Row)
    (columnOrder : list string) : list Row * list string :=
  fold_left (formatToBinaryDataRow columnOrder) data ([], []).

(** *** [formataToNativeType], the reverse pass of the fetch path *)

(** The body of the loop over the entries of [row]; a tagged value that is
    not [Present] falls out of its case without an assignment. *)
Definition formataToNativeTypeStep `{!Externals} (col : string) (value : Value)
    (st : Row * list string) : Row * list string :=
  let '(newRow, stdout) := st in
  match value with
  | VTimestamptz v =>
      match pgtype.Timestamptz_Status v with
      | pgtype.Present => (<[col := VTime (pgtype.Timestamptz_Time v)]> newRow, stdout)
      | _ => (newRow, stdout)
      end
  | VFloat8 v =>
      match pgtype.Float8_Status v with
      | pgtype.Present => (<[col := VFloat64 (pgtype.Float8_Float v)]> newRow, stdout)
      | _ => (newRow, stdout)
      end
  | VInt4 v =>
      match pgtype.Int4_Status v with
      | pgtype.Present => (<[col := VInt (int (pgtype.Int4_Int v))]> newRow, stdout)
      | _ => (newRow, stdout)
      end
  | VPgBool v =>
      match pgtype.Bool_Status v with
      | pgtype.Present => (<[col := VBool (pgtype.Bool_Bool v)]> newRow, stdout)
      | _ => (newRow, stdout)
      end
  | VText v =>
      match pgtype.Text_Status v with
      | pgtype.Present => (<[col := VString (pgtype.Text_String v)]> newRow, stdout)
      | _ => (newRow, stdout)
      end
  | VNumeric v =>
      match pgtype.Numeric_Status v with
      | pgtype.Present =>
          match Numeric_Value v with
          | inr err =>
              (newRow,
               stdout ++ ["Error converting Numeric to decimal.Decimal: "
                          +:+ Error err +:+ newline])
          | inl decimalVal =>
              match decimal_NewFromString decimalVal with
              | inr err =>
                  (newRow,
                   stdout ++ ["Error converting string to decimal.Decimal: "
                              +:+ Error err +:+ newline])
              | inl decimalValue =>
                  (<[col := VFloat64 (Decimal_Float64 decimalValue)]> newRow, stdout)
              end
          end
      | _ => (newRow, stdout)
      end
  | _ => (<[col := value]> newRow, stdout)
  end.

(** The body of the loop over [data]; [range row] visits the entries in the
    order the runtime picks, here the order of [map_fold]. *)
Definition formataToNativeTypeRow `{!Externals}
    (st : list Row * list string) (row : Row) : list Row * list string :=
  let '(newData, stdout) := st in
  let '(newRow, stdout') := map_fold formataToNativeTypeStep (∅, stdout) row in
  (newData ++ [newRow], stdout').

Definition formataToNativeType `{!Externals} (data : list Row) : list Row * list string :=
  fold_left formataToNativeTypeRow data ([], []).

(** [newRow] is the record the pass builds from [row]: at each key of
    [row], what the step of that entry assigns; no other key. *)
Definition nativeOf `{!Externals} (row newRow : Row) : Prop :=
  ∀ k, newRow !! k =
       match row !! k with
       | Some value => (formataToNativeTypeStep k value (∅, [])).1 !! k
       | None => None
       end.

(** ** The bulk-load cursor *)

(** [mapCopyFromSource] is an implementation of [pgx.CopyFromSource] for a
    slice of maps. Its methods have a pointer receiver: each takes the
    cursor and returns it next to its result. *)
Record mapCopyFromSource := {
  data : list Row;
  pos : nat;
  columns : list string;
}.

Definition newMapCopyFromSource (data : list Row) (columnsOrder : list string)
    : mapCopyFromSource :=
  {| data := data; pos := 0; columns := columnsOrder |}.

Definition Next (m : mapCopyFromSource) : bool * mapCopyFromSource :=
  (bool_decide (pos m < length (data m)), m).

(** The loop [for i, col := range m.columns { values[i] = m.data[m.pos][col] }]. *)
Fixpoint fillValues (row : Row) (i : nat) (cols : list string)
    (values : list Value) : list Value :=
  match cols with
  | [] => values
  | col :: rest => fillValues row (S i) rest (<[i := index row col]> values)
  end.

(** [Values] returns [(values, nil)] or [(nil, io.EOF)]. *)
Definition Values (m : mapCopyFromSource)
    : (list Value + error) * mapCopyFromSource :=
  let '(more, m) := Next m in
  if negb more then (inr EOF, m)
  else
    let values := replicate (length (columns m)) VNil in
    let values := fillValues (default ∅ (data m !! pos m)) 0 (columns m) values in
    (inl values, {| data := data m; pos := S (pos m); columns := columns m |}).

Definition Err (m : mapCopyFromSource) : option error * mapCopyFromSource :=
  (None, m).

(** The cursor after [k] calls of [Values]. *)
Fixpoint afterValues (k : nat) (m : mapCopyFromSource) : mapCopyFromSource :=
  match k with
  | 0 => m
  | S k => afterValues k (Values m).2
  end.

(** How [pgx]'s [CopyFrom] reads a source: [Next], then [Values], until
    [Next] is false or [Values] fails; at most [fuel] rows. *)
Fixpoint readRows (fuel : nat) (m : mapCopyFromSource)
    : (list (list Value) + error) * mapCopyFromSource :=
  match fuel with
  | 0 => (inl [], m)
  | S fuel =>
      let '(more, m) := Next m in
      if more then
        match Values m with
        | (inl values, m) =>
            match readRows fuel m with
            | (inl rows, m) => (inl (values :: rows), m)
            | (inr err, m) => (inr err, m)
            end
        | (inr err, m) => (inr err, m)
        end
      else (inl [], m)
  end.

(** ** The database, as [InsertBulkData] sees it *)

(** A write made by a transaction: a statement run by [Exec] or a bulk copy. *)
Inductive DbWrite :=
| WExec (sql : string)
| WCopy (tableName : string) (columnNames : list string) (rows : list (list Value)).

(** The calls that leave the package, in order, each with what it returned. *)
Inductive Event :=
| EvWithTimeout (timeout : Z)
| EvCancel
| EvStdout (line : string)
| EvLog (line : string)
| EvBegin (ret : option error)
| EvExec (sql : string) (ret : option error)
| EvCopyFrom (tableName : string) (columnNames : list string)
    (rows : list (list Value)) (ret : option error)
| EvCommit (ret : option error)
| EvRollback (ret : option error).

Inductive TxStatus := TxNone | TxOpen | TxClosed.

(** [committed] is what a caller can observe of the database; [txWrites]
    are the writes of the open transaction, seen by nobody else. *)
Record World := {
  committed : list DbWrite;
  txStatus : TxStatus;
  txWrites : list DbWrite;
  trace : list Event;
}.

(** What the outside answers during one call: the UUID drawn, the order in
    which the runtime ranges over a map, and the error (or [nil]) of each
    call to the server. A deadline that expires shows as the error of the
    call it interrupts. *)
Record Script := {
  uuid_New : uuid.UUID;
  rangeKeys : Row → list string;
  Begin_err : option error;
  Exec_err : string → option error;
  CopyFrom_err : string → list string → list (list Value) → option error;
  Commit_err : option error;
  Rollback_err : option error;
}.

(** Code that runs against the world. *)
Definition M (A : Type) : Type := World → A * World.

#[export] Instance M_ret : MRet M := λ A x w, (x, w).

#[export] Instance M_bind : MBind M := λ A B f m w, let '(x, w') := m w in f x w'.

Definition emit (ev : Event) : M unit := λ w,
  (tt, {| committed := committed w; txStatus := txStatus w;
          txWrites := txWrites w; trace := trace w ++ [ev] |}).

(** [defer cleanup] before [body]: [cleanup] runs when [body] returns, and
    what it returns is dropped. *)
Definition defer {A B : Type} (cleanup : M B) (body : M A) : M A :=
  r ← body; _ ← cleanup; mret r.

(** [fmt.Printf] of the lines a pass printed. *)
Fixpoint printAll (lines : list string) : M unit :=
  match lines with
  | [] => mret tt
  | line :: rest => _ ← emit (EvStdout line); printAll rest
  end.

(** *** The driver: [pgxpool.Pool.Begin] and the methods of [pgx.Tx] *)

(** [Begin] opens a transaction; [Exec] and [CopyFrom] write inside it;
    [Commit] and [Rollback] close it, whatever they return, and on a closed
    transaction every method returns [ErrTxClosed] and does nothing. *)
Definition Pool_Begin (s : Script) : M (option error) := λ w,
  match Begin_err s with
  | Some err =>
      (Some err, {| committed := committed w; txStatus := txStatus w;
                    txWrites := txWrites w;
                    trace := trace w ++ [EvBegin (Some err)] |})
  | None =>
      (None, {| committed := committed w; txStatus := TxOpen;
                txWrites := []; trace := trace w ++ [EvBegin None] |})
  end.

Definition tx_write (wr : DbWrite) (ev : option error → Event)
    (answer : option error) : M (option error) := λ w,
  match txStatus w with
  | TxOpen =>
      match answer with
      | Some err =>
          (Some err, {| committed := committed w; txStatus := TxOpen;
                        txWrites := txWrites w;
                        trace := trace w ++ [ev (Some err)] |})
      | None =>
          (None, {| committed := committed w; txStatus := TxOpen;
                    txWrites := txWrites w ++ [wr];
                    trace := trace w ++ [ev None] |})
      end
  | _ =>
      (Some ErrTxClosed, {| committed := committed w; txStatus := txStatus w;
                            txWrites := txWrites w;
                            trace := trace w ++ [ev (Some ErrTxClosed)] |})
  end.

Definition tx_Exec (s : Script) (sql : string) : M (option error) :=
  tx_write (WExec sql) (EvExec sql) (Exec_err s sql).

(** [CopyFrom] reads the source to its end and sends the rows. *)
Definition tx_CopyFrom (s : Script) (tableName : string)
    (columnNames : list string) (rowSrc : mapCopyFromSource) : M (option error) :=
  match readRows (length (data rowSrc)) rowSrc with
  | (inl rows, _) =>
      tx_write (WCopy tableName columnNames rows)
        (EvCopyFrom tableName columnNames rows)
        (CopyFrom_err s tableName columnNames rows)
  | (inr err, _) => mret (Some err)
  end.

Definition tx_Commit (s : Script) : M (option error) := λ w,
  match txStatus w with
  | TxOpen =>
      match Commit_err s with
      | Some err =>
          (Some err, {| committed := committed w; txStatus := TxClosed;
                        txWrites := [];
                        trace := trace w ++ [EvCommit (Some err)] |})
      | None =>
          (None, {| committed := committed w ++ txWrites w; txStatus := TxClosed;
                    txWrites := [];
                    trace := trace w ++ [EvCommit None] |})
      end
  | _ =>
      (Some ErrTxClosed, {| committed := committed w; txStatus := txStatus w;
                            txWrites := txWrites w;
                            trace := trace w ++ [EvCommit (Some ErrTxClosed)] |})
  end.

Definition tx_Rollback (s : Script) : M (option error) := λ w,
  match txStatus w with
  | TxOpen =>
      (Rollback_err s, {| committed := committed w; txStatus := TxClosed;
                          txWrites := [];
                          trace := trace w ++ [EvRollback (Rollback_err s)] |})
  | _ =>
      (Some ErrTxClosed, {| committed := committed w; txStatus := txStatus w;
                            txWrites := txWrites w;
                            trace := trace w ++ [EvRollback (Some ErrTxClosed)] |})
  end.

(** ** [InsertBulkData] *)

(** [getColumns] returns the keys of the first map, in the order [range]
    visits them. *)
Definition getColumns (s : Script) (data : list Row) : list string :=
  match data with
  | [] => []
  | first :: _ =>
      fold_left (λ columns column, columns ++ [column]) (rangeKeys s first) []
  end.

(** The logging of a failed [CopyFrom]. *)
Definition logCopyError (err : error) : M unit :=
  _ ← emit (EvLog ("Error during COPY operation: " +:+ Error err));
  match err with
  | PgError _ => emit (EvLog ("Error details:" +:+ newline +:+ Error err +:+ newline))
  | _ => mret tt
  end.

(** [InsertBulkData] inserts data in bulk into a PostgreSQL table with an
    ON CONFLICT UPDATE clause. *)
Definition InsertBulkData `{!Externals} (s : Script) (data : list Row)
    (table : string) (primaryKey : list string) (timeout : Z) : M (option error) :=
  if bool_decide (length data = 0) then mret None
  else
    _ ← emit (EvWithTimeout timeout);
    defer (emit EvCancel) (
      let columns := getColumns s data in
      let data := formatTimestamps data columns in
      let '(data, stdout) := formatToBinaryData data columns in
      _ ← printAll stdout;
      err ← Pool_Begin s;
      match err with
      | Some err => mret (Some err)
      | None =>
          defer (tx_Rollback s) (
            let tempTable := generateUniqueTempTableName (uuid_New s) table in
            err ← tx_Exec s (createTempStmt tempTable table);
            match err with
            | Some err => mret (Some err)
            | None =>
                let dataToInsert := newMapCopyFromSource data columns in
                err ← tx_CopyFrom s tempTable columns dataToInsert;
                match err with
                | Some err => _ ← logCopyError err; mret (Some err)
                | None =>
                    err ← tx_Exec s (insertStmt table columns tempTable primaryKey);
                    match err with
                    | Some err => mret (Some err)
                    | None =>
                        err ← tx_Commit s;
                        match err with
                        | Some err => mret (Some err)
                        | None => mret None
                        end
                    end
                end
            end)
      end).

(** *** What one call asks of the server *)

(** The rows the cursor hands to [CopyFrom], and the answers of the server
    to the four steps after [Begin], in order: staging table, bulk copy,
    merge, commit. *)
Definition stagedRows `{!Externals} (s : Script) (data : list Row) : list (list Value) :=
  let columns := getColumns s data in
  (λ row, index row <$> columns)
    <$> (formatToBinaryData (formatTimestamps data columns) columns).1.

Definition answers `{!Externals} (s : Script) (data : list Row) (table : string)
    (primaryKey : list string) : list (option error) :=
  let columns := getColumns s data in
  let tempTable := generateUniqueTempTableName (uuid_New s) table in
  [ Exec_err s (createTempStmt tempTable table);
    CopyFrom_err s tempTable columns (stagedRows s data);
    Exec_err s (insertStmt table columns tempTable primaryKey);
    Commit_err s ].

(** The writes of a call that commits. *)
Definition stagedWrites `{!Externals} (s : Script) (data : list Row) (table : string)
    (primaryKey : list string) : list DbWrite :=
  let columns := getColumns s data in
  let tempTable := generateUniqueTempTableName (uuid_New s) table in
  [ WExec (createTempStmt tempTable table);
    WCopy tempTable columns (stagedRows s data);
    WExec (insertStmt table columns tempTable primaryKey) ].

(** The first error of a list of answers. *)
Fixpoint firstError (l : list (option error)) : option error :=
  match l with
  | [] => None
  | Some err :: _ => Some err
  | None :: rest => firstError rest
  end.

(** ** Sample inputs *)

Definition uuid_sample_a : uuid.UUID :=
  [Byte.x12; Byte.x3e; Byte.x45; Byte.x67; Byte.xe8; Byte.x9b; Byte.x12; Byte.xd3;
   Byte.xa4; Byte.x56; Byte.x42; Byte.x66; Byte.x14; Byte.x17; Byte.x40; Byte.x00].

Definition uuid_sample_b : uuid.UUID :=
  [Byte.x12; Byte.x3e; Byte.x45; Byte.x67; Byte.xe8; Byte.x9b; Byte.x12; Byte.xd3;
   Byte.xa4; Byte.x56; Byte.x42; Byte.x66; Byte.x14; Byte.x17; Byte.x40; Byte.x01].

(** A stand-in for the library functions, enough to run the passes on the
    samples. It knows one timestamp and one float; it writes a numeric the
    way [pgtype] does, as coefficient, [e] and exponent, or as [NaN], and
    reads a decimal back from that form, refusing anything else as
    [decimal.NewFromString] refuses [NaN]. *)
Definition sample_time : Time :=
  {| wall := 0; ext := 63839761445; loc := "UTC" |}.

Definition sample_float : float64 := Float64frombits 4622100592565682176.

Definition Z_String (z : Z) : string := NilZero.string_of_int (Z.to_int z).

Definition Z_ofString (s : string) : option Z :=
  Z.of_int <$> NilZero.int_of_string s.

Definition sample_NewFromString (s : string) : Decimal + error :=
  let parts :=
    match String.index 0 "e" s with
    | Some k =>
        (Z_ofString (String.substring 0 k s),
         Z_ofString (String.substring (S k) (String.length s - S k) s))
    | None => (Z_ofString s, Some 0%Z)
    end in
  match parts with
  | (Some value, Some exp) => inl {| Decimal_value := value; Decimal_exp := exp |}
  | _ => inr (errorString ("can't convert " +:+ s +:+ " to decimal"))
  end.

Definition sample_externals : Externals := {|
  time_Parse_RFC3339 s :=
    if String.eqb s "2024-01-02T03:04:05Z" then inl sample_time
    else inr (errorString ("parsing time " +:+ s));
  Time_Format_RFC3339 _ := "2024-01-02T03:04:05Z";
  strconv_ParseFloat s :=
    if String.eqb s "10.5" then inl sample_float
    else inr (errorString "invalid syntax");
  Numeric_Value v :=
    if pgtype.Numeric_NaN v then inl "NaN"
    else inl (Z_String (pgtype.Numeric_Int v) +:+ "e"
              +:+ Z_String (pgtype.Numeric_Exp v));
  decimal_NewFromString := sample_NewFromString;
  Decimal_Float64 _ := sample_float;
|}.

Definition sample_row : Row :=
  <["id" := VInt 1]> (<["val" := VString "10.5"]>
    (<["time" := VTime sample_time]> (<["seq" := VInt64 7]> ∅))).

Definition sample_row_bad : Row :=
  <["id" := VInt 2]> (<["val" := VString "b"]>
    (<["time" := VString "yesterday"]> ∅)).

Definition sample_columns : list string := ["id"; "val"; "time"; "seq"].

Definition sample_numeric : pgtype.Numeric :=
  {| pgtype.Numeric_Int := 105; pgtype.Numeric_Exp := -1;
     pgtype.Numeric_Status := pgtype.Present; pgtype.Numeric_NaN := false |}.

Definition sample_numeric_NaN : pgtype.Numeric :=
  {| pgtype.Numeric_Int := 0; pgtype.Numeric_Exp := 0;
     pgtype.Numeric_Status := pgtype.Present; pgtype.Numeric_NaN := true |}.

Definition sample_fetched : Row :=
  <["price" := VNumeric sample_numeric]>
    (<["name" := VText {| pgtype.Text_String := "a";
                          pgtype.Text_Status := pgtype.Null |}]>
      (<["qty" := VInt4 {| pgtype.Int4_Int := 3;
                           pgtype.Int4_Status := pgtype.Present |}]> ∅)).

Definition sample_fetched_NaN : Row :=
  <["price" := VNumeric sample_numeric_NaN]> ∅.

(** A server that refuses the bulk copy, one that accepts every step, and
    a database with nothing committed and no transaction. *)
Definition sample_script_copy_fails : Script := {|
  uuid_New := uuid_sample_a;
  rangeKeys row := (map_to_list row).*1;
  Begin_err := None;
  Exec_err _ := None;
  CopyFrom_err _ _ _ := Some (PgError "ERROR: value too long (SQLSTATE 22001)");
  Commit_err := None;
  Rollback_err := None;
|}.

Definition sample_script_ok : Script := {|
  uuid_New := uuid_sample_a;
  rangeKeys row := (map_to_list row).*1;
  Begin_err := None;
  Exec_err _ := None;
  CopyFrom_err _ _ _ := None;
  Commit_err := None;
  Rollback_err := None;
|}.

Definition sample_world : World :=
  {| committed := []; txStatus := TxNone; txWrites := []; trace := [] |}.

(** ** The rest of the package *)

(** [buildUpdateValues] constructs the SET clause for ON CONFLICT UPDATE. *)
Definition buildUpdateValues (primaryKey updateAssignments : list string) : string :=
  "ON CONFLICT (" +:+ strings.Join primaryKey ", "
  +:+ ") DO UPDATE SET " +:+ strings.Join updateAssignments ", ".

(** An [int] of a 64-bit platform: arithmetic wraps around. *)
Definition wrap64 (z : Z) : Z :=
  (z + 2 ^ 63) mod 2 ^ 64 - 2 ^ 63.

(** [generateRandomNumber], the draw [rnd.Intn] as an argument; [Intn]
    panics when its argument is not positive, and [None] is the panic. *)
Definition generateRandomNumber (Intn : Z → Z) (min max : Z) : option Z :=
  let n := wrap64 (wrap64 (max - min) + 1) in
  if (n <=? 0)%Z then None else Some (wrap64 (Intn n + min)).

(** *** The logger and [InitDB] *)

(** The levels of [pgx.LogLevel]. *)
Module pgx.

Definition LogLevelTrace : Z := 6.
Definition LogLevelDebug : Z := 5.
Definition LogLevelInfo : Z := 4.
Definition LogLevelWarn : Z := 3.
Definition LogLevelError : Z := 2.
Definition LogLevelNone : Z := 1.

End pgx.

(** [CustomLogger]; its [log.Logger] writes to standard output. *)
Record CustomLogger := { CustomLogger_level : Z }.

(** A call of [cl.logger.Printf], with its arguments. *)
Inductive LogLine := Printf_line (level : Z) (msg : string) (data : Row).

(** [Log] implements the [pgx.Logger] interface. *)
Definition Log (cl : CustomLogger) (level : Z) (msg : string) (data : Row)
    : list LogLine :=
  if (level <=? CustomLogger_level cl)%Z then [Printf_line level msg data] else [].

Record DatabaseConfig := {
  User : string;
  Password : string;
  Host : string;
  Port : Z;
  DBName : string;
  SSLMode : string;
  LogLevel : string;
  NATSURL : string;
}.

(** [%d] of an [int]. *)
Definition Sprintf_d (z : Z) : string := NilZero.string_of_int (Z.to_int z).

(** [buildConnString] builds the PostgreSQL connection string. *)
Definition buildConnString (config : DatabaseConfig) : string :=
  "user=" +:+ User config +:+ " password=" +:+ Password config
  +:+ " host=" +:+ Host config +:+ " port=" +:+ Sprintf_d (Port config)
  +:+ " dbname=" +:+ DBName config +:+ " sslmode=" +:+ SSLMode config.

(** The map literal of [InitDB]. *)
Definition logLevelMapping : gmap string Z :=
  <["debug" := pgx.LogLevelDebug]> (<["info" := pgx.LogLevelInfo]>
    (<["warn" := pgx.LogLevelWarn]> (<["error" := pgx.LogLevelError]> ∅))).

(** A pool, by what [InitDB] gave it; the package variable [Pool] is a
    pointer, [None] when nil. *)
Record PoolHandle := { pool_connString : string; pool_logger : CustomLogger }.

(** What [pgxpool.ParseConfig] and [pgxpool.ConnectConfig] answer;
    [ConnectConfig] returns a nil pool with its error. *)
Record InitScript := {
  ParseConfig_err : string → option error;
  ConnectConfig_err : string → option error;
}.

(** [InitDB]: the error returned and the new value of [Pool]. *)
Definition InitDB (i : InitScript) (config : DatabaseConfig)
    (Pool : option PoolHandle) : option error * option PoolHandle :=
  let configLogLevel :=
    match logLevelMapping !! LogLevel config with
    | Some l => l
    | None => pgx.LogLevelError
    end in
  match ParseConfig_err i (buildConnString config) with
  | Some err =>
      (Some (errorString ("error parsing connection string: " +:+ Error err)), Pool)
  | None =>
      let customLogger := {| CustomLogger_level := configLogLevel |} in
      match ConnectConfig_err i (buildConnString config) with
      | Some err =>
          (Some (errorString ("unable to connect to the database: " +:+ Error err)),
           None)
      | None =>
          (None, Some {| pool_connString := buildConnString config;
                         pool_logger := customLogger |})
      end
  end.

(** *** [FetchDataFromTable] *)

(** The calls on the pool, the connection and the rows. *)
Inductive FetchEvent :=
| FvAcquire (ret : option error)
| FvQuery (query : string) (ret : option error)
| FvRowsClose
| FvRelease
| FvStdout (line : string).

(** What the server answers to one query: the error of [Acquire] and of
    [Query], the column names of [FieldDescriptions], and for each row
    [rows.Next()] announces, [columnData] as [Scan] leaves it or the error of
    [Scan]. *)
Record FetchScript := {
  Acquire_err : option error;
  Query_err : string → option error;
  FieldDescriptions : string → list string;
  scans : string → list (list Value + error);
}.

(** The loop [for i, colName := range columns] that fills [entry]. *)
Fixpoint fillEntry (i : nat) (columns : list string) (columnData : list Value)
    (entry : Row) : Row :=
  match columns with
  | [] => entry
  | colName :: rest =>
      let val := default VNil (columnData !! i) in
      fillEntry (S i) rest columnData
        (match val with
         | VBytes b => <[colName := VString (string_of_list_byte b)]> entry
         | _ => <[colName := val]> entry
         end)
  end.

(** The loop [for rows.Next()]: an error of [Scan] ends the call. *)
Fixpoint scanRows (columns : list string) (rows : list (list Value + error))
    (result : list Row) : list Row + error :=
  match rows with
  | [] => inl result
  | inr err :: _ => inr err
  | inl columnData :: rest =>
      scanRows columns rest (result ++ [fillEntry 0 columns columnData ∅])
  end.

(** [FetchDataFromTable]: [(result, nil)] or [(nil, err)], and the calls
    made. The deferred [rows.Close()] and [conn.Release()] run at return,
    the last deferred first. *)
Definition FetchDataFromTable `{!Externals} (f : FetchScript) (query : string)
    : (list Row + error) * list FetchEvent :=
  match Acquire_err f with
  | Some err => (inr err, [FvAcquire (Some err)])
  | None =>
      match Query_err f query with
      | Some err =>
          (inr err, [FvAcquire None; FvQuery query (Some err)] ++ [FvRelease])
      | None =>
          let columns := FieldDescriptions f query in
          match scanRows columns (scans f query) [] with
          | inr err =>
              (inr err,
               [FvAcquire None; FvQuery query None] ++ [FvRowsClose; FvRelease])
          | inl result =>
              let '(result, stdout) := formataToNativeType result in
              (inl result,
               [FvAcquire None; FvQuery query None] ++ (FvStdout <$> stdout)
               ++ [FvRowsClose; FvRelease])
          end
      end
  end.

(** *** More samples *)

Definition sample_config : DatabaseConfig := {|
  User := "app"; Password := "secret"; Host := "localhost"; Port := 5432;
  DBName := "trades"; SSLMode := "disable"; LogLevel := "verbose"; NATSURL := "";
|}.

Definition sample_pool : PoolHandle :=
  {| pool_connString := "user=old"; pool_logger := {| CustomLogger_level := 2 |} |}.

Definition sample_init_unreachable : InitScript := {|
  ParseConfig_err _ := None;
  ConnectConfig_err _ := Some (errorString "dial tcp: connection refused");
|}.

Definition sample_fetch : FetchScript := {|
  Acquire_err := None;
  Query_err _ := None;
  FieldDescriptions _ := ["name"; "qty"];
  scans _ :=
    [ inl [VBytes [Byte.x61; Byte.x62];
           VInt4 {| pgtype.Int4_Int := 3; pgtype.Int4_Status := pgtype.Present |}];
      inl [VString "c";
           VInt4 {| pgtype.Int4_Int := 0; pgtype.Int4_Status := pgtype.Null |}] ];
|}.

(** A fetched row with a column of a driver type the reverse pass does not
    name, its value NULL. *)
Definition sample_fetched_other : Row :=
  <["qty" := VInt4 {| pgtype.Int4_Int := 3; pgtype.Int4_Status := pgtype.Present |}]>
    (<["big" := VPgOther "pgtype.Int8" pgtype.Null]> ∅).

Definition sample_fetch_scan_fails : FetchScript := {|
  Acquire_err := None;
  Query_err _ := None;
  FieldDescriptions _ := ["name"; "qty"];
  scans _ :=
    [ inl [VString "a"; VInt 1];
      inr (errorString "can't scan into dest[1]") ];
|}.

(** * Part II: the properties *)

(** ** Facts about strings *)

Section StringFacts.

Lemma append_cons (c : ascii) (s t : string) :
  String c s +:+ t = String c (s +:+ t).
Proof. reflexivity. Qed.

Lemma append_assoc (s t u : string) : s +:+ t +:+ u = (s +:+ t) +:+ u.
Proof. induction s as [|c s IH]; [done |]. by rewrite !append_cons, IH. Qed.

Lemma length_append (s t : string) :
  String.length (s +:+ t) = String.length s + String.length t.
Proof. induction s as [|c s IH]; simpl; [done | by rewrite IH]. Qed.

Lemma append_inj_prefix (s1 s2 t1 t2 : string) :
  String.length s1 = String.length s2 →
  s1 +:+ t1 = s2 +:+ t2 → s1 = s2 ∧ t1 = t2.
Proof.
  revert s2. induction s1 as [|c s1 IH]; intros [|c' s2] Hlen Heq;
    simpl in *; try discriminate; [done |].
  injection Heq as -> Heq. injection Hlen as Hlen.
  destruct (IH _ Hlen Heq) as [-> ->]. done.
Qed.

Lemma append_inj_suffix (s1 s2 t1 t2 : string) :
  String.length t1 = String.length t2 →
  s1 +:+ t1 = s2 +:+ t2 → s1 = s2 ∧ t1 = t2.
Proof.
  intros Hlen Heq. apply append_inj_prefix; [|done].
  apply (f_equal String.length) in Heq. rewrite !length_append in Heq. lia.
Qed.

Lemma excludedAssignment_inj (c c' : string) :
  excludedAssignment c = excludedAssignment c' → c = c'.
Proof.
  unfold excludedAssignment. intros Heq.
  apply append_inj_prefix in Heq as [? _]; [done |].
  apply (f_equal String.length) in Heq.
  rewrite !length_append in Heq. simpl in Heq. lia.
Qed.

End StringFacts.

Lemma contains_spec (slice : list string) (item : string) :
contains slice item = true ↔ item ∈ slice.
Proof.
induction slice as [|s rest IH]; simpl.
- split; [done | by intros ?%elem_of_nil].
- destruct (String.eqb_spec s item) as [-> | Hne].
  + split; [intros _; left | done].
  + rewrite IH. split; [by right |].
    intros [?|?]%elem_of_cons; [congruence | done].
Qed.

Lemma updateAssignments_fold (primaryKey columns acc : list string) :
fold_left (updateAssignmentsStep primaryKey) columns acc =
acc ++ (excludedAssignment <$> filter (λ c, c ∉ primaryKey) columns).
Proof.
revert acc. induction columns as [|c columns IH]; intros acc; simpl.
- by rewrite app_nil_r.
- rewrite IH. unfold updateAssignmentsStep.
  destruct (contains primaryKey c) eqn:Hc; simpl.
  + apply contains_spec in Hc. rewrite filter_cons_False; [done | tauto].
  + rewrite filter_cons_True.
    * by rewrite <- app_assoc.
    * intros ?%contains_spec. congruence.
Qed.

Lemma updateAssignmentsOf_filter (columns primaryKey : list string) :
updateAssignmentsOf columns primaryKey =
excludedAssignment <$> filter (λ c, c ∉ primaryKey) columns.
Proof. unfold updateAssignmentsOf. by rewrite updateAssignments_fold. Qed.

(** C2: the merge statement is [INSERT INTO <target> (<columns>) SELECT
  DISTINCT <columns> FROM <staging> ON CONFLICT (<primary key>) DO UPDATE
  SET <assignments>], the assignments being [col = EXCLUDED.col] for the
  columns outside the primary key, in column order, and for none of the
  primary-key columns. *)
Theorem insertStmt_shape (table tempTable : string) (columns primaryKey : list string) :
∃ assignments : list string,
  insertStmt table columns tempTable primaryKey =
    "INSERT INTO " +:+ table +:+ " (" +:+ strings.Join columns ", "
    +:+ ") SELECT DISTINCT " +:+ strings.Join columns ", "
    +:+ " FROM " +:+ tempTable
    +:+ " ON CONFLICT (" +:+ strings.Join primaryKey ", "
    +:+ ") DO UPDATE SET " +:+ strings.Join assignments ", "
  ∧ assignments =
      (λ col, col +:+ " = EXCLUDED." +:+ col) <$>
        filter (λ c, c ∉ primaryKey) columns
  ∧ (∀ col, col ∈ columns → col ∉ primaryKey →
       col +:+ " = EXCLUDED." +:+ col ∈ assignments)
  ∧ (∀ col, col ∈ primaryKey →
       col +:+ " = EXCLUDED." +:+ col ∉ assignments).
Proof.
exists (updateAssignmentsOf columns primaryKey).
split; [reflexivity |].
rewrite updateAssignmentsOf_filter. split; [reflexivity |]. split.
- intros col Hcol Hpk. apply list_elem_of_fmap. exists col. split; [done |].
  by apply list_elem_of_filter.
- intros col Hpk [c [Heq [Hnpk _]%list_elem_of_filter]]%list_elem_of_fmap.
  apply (excludedAssignment_inj col c) in Heq. by subst.
Qed.

Section StagingName.

Lemma nibble_cases (n : N) :
  (n < 16)%N → n ∈ (N.of_nat <$> seq 0 16).
Proof.
  intros Hn. apply list_elem_of_fmap. exists (N.to_nat n).
  split; [lia |]. apply list_elem_of_In, in_seq. lia.
Qed.

Lemma unhex_hexdigit (n : N) : (n < 16)%N → unhex (uuid.hexdigit n) = n.
Proof.
  intros Hn%nibble_cases. cbn in Hn.
  repeat (apply elem_of_cons in Hn as [-> | Hn]; [reflexivity |]).
  by apply elem_of_nil in Hn.
Qed.

Lemma hexdigit_isHex (n : N) :
  (n < 16)%N → isHexDigit (uuid.hexdigit n) = true ∧ uuid.hexdigit n ≠ "-"%char.
Proof.
  intros Hn%nibble_cases. cbn in Hn.
  repeat (apply elem_of_cons in Hn as [-> | Hn]; [by split |]).
  by apply elem_of_nil in Hn.
Qed.

Lemma byte_hi_lt (v : Byte.byte) : (N.shiftr (Byte.to_N v) 4 < 16)%N.
Proof.
  pose proof (Byte.to_N_bounded v). rewrite N.shiftr_div_pow2.
  apply N.Div0.div_lt_upper_bound. simpl. lia.
Qed.

Lemma byte_lo_lt (v : Byte.byte) : (N.land (Byte.to_N v) 15 < 16)%N.
Proof.
  change 15%N with (N.ones 4). rewrite N.land_ones.
  apply N.mod_lt. done.
Qed.

Lemma byte_nibbles_inj (v w : Byte.byte) :
  N.shiftr (Byte.to_N v) 4 = N.shiftr (Byte.to_N w) 4 →
  N.land (Byte.to_N v) 15 = N.land (Byte.to_N w) 15 → v = w.
Proof.
  rewrite !N.shiftr_div_pow2. change 15%N with (N.ones 4).
  rewrite !N.land_ones. intros Hhi Hlo.
  assert (Byte.to_N v = Byte.to_N w) as Heq.
  { rewrite (N.div_mod (Byte.to_N v) (2 ^ 4)), (N.div_mod (Byte.to_N w) (2 ^ 4)) by done.
    by rewrite Hhi, Hlo. }
  apply (f_equal Byte.of_N) in Heq. rewrite !Byte.of_to_N in Heq.
  by injection Heq.
Qed.

Lemma hexEncode_inj (l1 l2 : list Byte.byte) :
  uuid.hexEncode l1 = uuid.hexEncode l2 → l1 = l2.
Proof.
  revert l2. induction l1 as [|v l1 IH]; intros [|w l2] Heq;
    simpl in Heq; try discriminate; [done |].
  injection Heq as Hhi Hlo Hrest.
  apply (f_equal unhex) in Hhi, Hlo.
  rewrite !unhex_hexdigit in Hhi, Hlo by auto using byte_hi_lt, byte_lo_lt.
  f_equal; [by apply byte_nibbles_inj | by apply IH].
Qed.

Lemma hexEncode_app (l1 l2 : list Byte.byte) :
  uuid.hexEncode (l1 ++ l2) = uuid.hexEncode l1 +:+ uuid.hexEncode l2.
Proof. induction l1 as [|v l1 IH]; simpl; [done | by rewrite IH]. Qed.

Lemma hexEncode_length (l : list Byte.byte) :
  String.length (uuid.hexEncode l) = 2 * length l.
Proof. induction l as [|v l IH]; simpl; [done | rewrite IH; lia]. Qed.

Lemma hexEncode_digits (l : list Byte.byte) (i : nat) (c : ascii) :
  String.get i (uuid.hexEncode l) = Some c →
  isHexDigit c = true ∧ c ≠ "-"%char.
Proof.
  revert i. induction l as [|v l IH]; intros i; simpl; [done |].
  destruct i as [|[|i]]; simpl.
  - intros [= <-]. apply hexdigit_isHex, byte_hi_lt.
  - intros [= <-]. apply hexdigit_isHex, byte_lo_lt.
  - apply IH.
Qed.

Lemma ReplaceAll_append (s t : string) (old : ascii) (new : string) :
  strings.ReplaceAll (s +:+ t) old new =
  strings.ReplaceAll s old new +:+ strings.ReplaceAll t old new.
Proof.
  induction s as [|c s IH]; simpl; [done |].
  destruct (Ascii.eqb c old); rewrite IH; [|done].
  apply append_assoc.
Qed.

Lemma ReplaceAll_hexEncode (l : list Byte.byte) (new : string) :
  strings.ReplaceAll (uuid.hexEncode l) "-" new = uuid.hexEncode l.
Proof.
  induction l as [|v l IH]; simpl; [done |].
  destruct (hexdigit_isHex _ (byte_hi_lt v)) as [_ Hhi].
  destruct (hexdigit_isHex _ (byte_lo_lt v)) as [_ Hlo].
  apply Ascii.eqb_neq in Hhi, Hlo. by rewrite Hhi, Hlo, IH.
Qed.

(** Removing the hyphens of the canonical form leaves the 32 hex digits
    of the 16 bytes. *)
Lemma cleanedUUID_hexEncode (u : uuid.UUID) :
  strings.ReplaceAll (uuid.String u) "-" "" = uuid.hexEncode u.
Proof.
  unfold uuid.String.
  rewrite !ReplaceAll_append, !ReplaceAll_hexEncode.
  change (strings.ReplaceAll "-" "-" "") with "".
  repeat match goal with |- context [ "" +:+ ?s ] => change ("" +:+ s) with s end.
  rewrite <- !hexEncode_app. f_equal.
  replace (drop 10 u) with (drop 2 (drop 8 u)) by (by rewrite drop_drop).
  rewrite take_drop.
  replace (drop 8 u) with (drop 2 (drop 6 u)) by (by rewrite drop_drop).
  rewrite take_drop.
  replace (drop 6 u) with (drop 2 (drop 4 u)) by (by rewrite drop_drop).
  by rewrite !take_drop.
Qed.

End StagingName.

(** C9: the staging-table name is [temp_<table>_<id>], [<id>] being the
  UUID's canonical string with the hyphens removed: 32 hexadecimal digits
  and no hyphen. Two calls that draw distinct UUIDs get distinct names,
  whatever their target tables. *)
Theorem generateUniqueTempTableName_unique
  (table1 table2 : string) (u1 u2 : uuid.UUID) :
uuid.wf u1 → uuid.wf u2 →
(∃ id : string,
    generateUniqueTempTableName u1 table1 = "temp_" +:+ table1 +:+ "_" +:+ id
    ∧ id = strings.ReplaceAll (uuid.String u1) "-" ""
    ∧ String.length id = 32
    ∧ ∀ i c, String.get i id = Some c →
             isHexDigit c = true ∧ c ≠ "-"%char)
∧ (u1 ≠ u2 →
   generateUniqueTempTableName u1 table1 ≠ generateUniqueTempTableName u2 table2).
Proof.
unfold uuid.wf. intros Hu1 Hu2. split.
- exists (strings.ReplaceAll (uuid.String u1) "-" "").
  split; [reflexivity |]. split; [reflexivity |].
  rewrite cleanedUUID_hexEncode. split.
  + rewrite hexEncode_length, Hu1. reflexivity.
  + apply hexEncode_digits.
- intros Hne Heq. apply Hne. unfold generateUniqueTempTableName in Heq.
  rewrite !cleanedUUID_hexEncode in Heq.
  rewrite !(append_assoc "temp_"), !(append_assoc _ "_") in Heq.
  apply append_inj_suffix in Heq as [_ Heq].
  + by apply hexEncode_inj.
  + rewrite !hexEncode_length. lia.
Qed.

Example uuid_String_sample :
uuid.String uuid_sample_a = "123e4567-e89b-12d3-a456-426614174000".
Proof. reflexivity. Qed.

Example generateUniqueTempTableName_sample :
generateUniqueTempTableName uuid_sample_a "trades" =
"temp_trades_123e4567e89b12d3a456426614174000".
Proof. reflexivity. Qed.

Lemma generateUniqueTempTableName_unique_witness :
uuid.wf uuid_sample_a ∧ uuid.wf uuid_sample_b ∧
generateUniqueTempTableName uuid_sample_a "trades" ≠
generateUniqueTempTableName uuid_sample_b "trades".
Proof.
split; [reflexivity |]. split; [reflexivity |].
apply (generateUniqueTempTableName_unique "trades" "trades"
         uuid_sample_a uuid_sample_b); [reflexivity | reflexivity |].
intros H. discriminate H.
Defined.

(** ** Loops that build a row and print *)

Section FoldWriter.

Context {S A : Type} (step : S * list string → A → S * list string).

Hypothesis step_out : ∀ st out c,
  step (st, out) c = ((step (st, []) c).1, out ++ (step (st, []) c).2).

Lemma fold_left_out (l : list A) (st : S) (out : list string) :
  fold_left step l (st, out) =
  ((fold_left step l (st, [])).1, out ++ (fold_left step l (st, [])).2).
Proof.
  revert st out. induction l as [|c l IH]; intros st out; simpl.
  - by rewrite app_nil_r.
  - rewrite step_out. destruct (step (st, []) c) as [st' out'] eqn:Hstep; simpl.
    rewrite IH, (IH st' out'). simpl. by rewrite app_assoc.
Qed.

End FoldWriter.

Section FoldRow.

Context (step : Row * list string → string → Row * list string).

(** A step assigns at most its own column, and what it assigns does not
    depend on the row built so far. *)
Hypothesis step_lookup : ∀ m out c col,
  (step (m, out) c).1 !! col =
  if decide (col = c)
  then match (step (∅, []) c).1 !! c with Some v => Some v | None => m !! c end
  else m !! col.

Lemma fold_left_lookup (cols : list string) (m : Row) (out : list string) (col : string) :
  (fold_left step cols (m, out)).1 !! col =
  if decide (col ∈ cols)
  then match (step (∅, []) col).1 !! col with Some v => Some v | None => m !! col end
  else m !! col.
Proof.
  revert m out. induction cols as [|c cols IH]; intros m out; simpl.
  - done.
  - destruct (step (m, out) c) as [m' out'] eqn:Hstep. rewrite IH.
    pose proof (step_lookup m out c col) as Hl. rewrite Hstep in Hl. simpl in Hl.
    rewrite Hl. clear Hl.
    destruct (decide (col ∈ cols)) as [Hin | Hnin].
    + rewrite (decide_True (P := col ∈ c :: cols)); [|by right].
      destruct (decide (col = c)) as [-> | Hne]; [|done].
      by destruct ((step (∅, []) c).1 !! c).
    + destruct (decide (col = c)) as [-> | Hne].
      * rewrite decide_True; [done | by left].
      * rewrite decide_False; [done |].
        intros [?|?]%elem_of_cons; done.
Qed.

End FoldRow.

(** ** The stringify pass *)

Section Stringify.

Context `{!Externals}.

Lemma formatTimestampsStep_lookup (row m : Row) (c col : string) :
  formatTimestampsStep row m c !! col =
  if decide (col = c) then formatTimestampsStep row ∅ c !! c else m !! col.
Proof.
  unfold formatTimestampsStep.
  destruct (decide (col = c)) as [-> | Hne].
  - destruct (index row c); try destruct (strconv_ParseFloat _);
      by rewrite !lookup_insert_eq.
  - destruct (index row c); try destruct (strconv_ParseFloat _);
      by rewrite lookup_insert_ne.
Qed.

Lemma formatTimestamps_fold_lookup (row m : Row) (cols : list string) (col : string) :
  fold_left (formatTimestampsStep row) cols m !! col =
  if decide (col ∈ cols) then formatTimestampsStep row ∅ col !! col else m !! col.
Proof.
  revert m. induction cols as [|c cols IH]; intros m; simpl.
  - done.
  - rewrite IH.
    destruct (decide (col ∈ cols)) as [Hin | Hnin].
    + rewrite decide_True; [done | by right].
    + rewrite formatTimestampsStep_lookup.
      destruct (decide (col = c)) as [-> | Hne].
      * rewrite decide_True; [done | by left].
      * rewrite decide_False; [done |].
        intros [?|?]%elem_of_cons; done.
Qed.

(** C7: the stringify pass replaces a timestamp by its RFC3339 string and a
    string that parses as a float by that float; a string that does not
    parse, and a value of any other type, is kept. *)
Theorem formatTimestamps_by_type (data : list Row) (columnOrder : list string)
    (i : nat) (row : Row) (col : string) :
  data !! i = Some row → col ∈ columnOrder →
  ∃ newRow : Row,
    formatTimestamps data columnOrder !! i = Some newRow
    ∧ (∀ t, index row col = VTime t →
            newRow !! col = Some (VString (Time_Format_RFC3339 t)))
    ∧ (∀ s num, index row col = VString s → strconv_ParseFloat s = inl num →
                newRow !! col = Some (VFloat64 num))
    ∧ (∀ s err, index row col = VString s → strconv_ParseFloat s = inr err →
                newRow !! col = Some (VString s))
    ∧ (∀ v, index row col = v → (∀ t, v ≠ VTime t) → (∀ s, v ≠ VString s) →
            newRow !! col = Some v).
Proof.
  intros Hrow Hcol. eexists. split.
  { unfold formatTimestamps. rewrite list_lookup_fmap, Hrow. reflexivity. }
  rewrite formatTimestamps_fold_lookup, decide_True by done.
  unfold formatTimestampsStep. repeat split.
  - intros t ->. by rewrite lookup_insert_eq.
  - intros s num Hs Hp. rewrite Hs. cbn. rewrite Hp. by rewrite lookup_insert_eq.
  - intros s err Hs Hp. rewrite Hs. cbn. rewrite Hp. by rewrite lookup_insert_eq.
  - intros v Hv Ht Hs. rewrite Hv.
    destruct v; try (by rewrite lookup_insert_eq).
    + by destruct (Hs s).
    + by destruct (Ht t).
Qed.

End Stringify.

Lemma formatTimestamps_by_type_witness :
  [sample_row] !! 0 = Some sample_row ∧ "val" ∈ sample_columns
  ∧ ∃ newRow : Row,
      @formatTimestamps sample_externals [sample_row] sample_columns !! 0
        = Some newRow
      ∧ newRow !! "val" = Some (VFloat64 sample_float).
Proof.
  split; [reflexivity |].
  assert ("val" ∈ sample_columns) as Hin by (by apply (bool_decide_unpack _)).
  split; [exact Hin |].
  destruct (@formatTimestamps_by_type sample_externals [sample_row]
              sample_columns 0 sample_row "val" eq_refl Hin)
    as (newRow & Hnew & _ & Hnum & _).
  exists newRow. split; [exact Hnew |].
  exact (Hnum "10.5" sample_float eq_refl eq_refl).
Defined.

(** ** The main coercion pass *)

Lemma int32_range (v : Z) : (- 2 ^ 31 ≤ int32 v < 2 ^ 31)%Z.
Proof.
  unfold int32. pose proof (Z.mod_pos_bound (v + 2 ^ 31) (2 ^ 32)). lia.
Qed.

Lemma int32_small (v : Z) : (- 2 ^ 31 ≤ v < 2 ^ 31)%Z → int32 v = v.
Proof. intros Hv. unfold int32. rewrite Z.mod_small; lia. Qed.

Section Binary.

Context `{!Externals}.

Lemma formatToBinaryDataStep_out (row : Row) (st : Row) (out : list string) (c : string) :
  formatToBinaryDataStep row (st, out) c =
  ((formatToBinaryDataStep row (st, []) c).1,
   out ++ (formatToBinaryDataStep row (st, []) c).2).
Proof.
  unfold formatToBinaryDataStep.
  destruct (index row c); try (by rewrite app_nil_r).
  destruct (String.eqb c "time"); [|by rewrite app_nil_r].
  destruct (time_Parse_RFC3339 s); simpl; [by rewrite app_nil_r | done].
Qed.

Lemma formatToBinaryDataStep_lookup (row m : Row) (out : list string) (c col : string) :
  (formatToBinaryDataStep row (m, out) c).1 !! col =
  if decide (col = c)
  then match (formatToBinaryDataStep row (∅, []) c).1 !! c with
       | Some v => Some v
       | None => m !! c
       end
  else m !! col.
Proof.
  unfold formatToBinaryDataStep.
  destruct (decide (col = c)) as [-> | Hne].
  - destruct (index row c) eqn:Hv; simpl; rewrite ?lookup_insert_eq; try done.
    destruct (String.eqb c "time"); simpl; [|by rewrite !lookup_insert_eq].
    destruct (time_Parse_RFC3339 s); simpl; by rewrite ?lookup_insert_eq.
  - destruct (index row c) eqn:Hv; simpl; rewrite ?lookup_insert_ne by done; try done.
    destruct (String.eqb c "time"); simpl; [|by rewrite lookup_insert_ne].
    destruct (time_Parse_RFC3339 s); simpl; by rewrite ?lookup_insert_ne.
Qed.

(** The row built from [row], and the lines printed while building it. *)
Lemma formatToBinaryDataRow_out (columnOrder : list string)
    (newData : list Row) (out : list string) (row : Row) :
  formatToBinaryDataRow columnOrder (newData, out) row =
  ((formatToBinaryDataRow columnOrder (newData, []) row).1,
   out ++ (formatToBinaryDataRow columnOrder (newData, []) row).2).
Proof.
  unfold formatToBinaryDataRow.
  rewrite (fold_left_out _ (formatToBinaryDataStep_out row) columnOrder ∅ out).
  by destruct (fold_left (formatToBinaryDataStep row) columnOrder (∅, [])).
Qed.

Lemma formatToBinaryData_fold (columnOrder : list string) (data newData : list Row)
    (out : list string) :
  fold_left (formatToBinaryDataRow columnOrder) data (newData, out) =
  (newData ++
     ((λ row, (fold_left (formatToBinaryDataStep row) columnOrder (∅, [])).1) <$> data),
   out ++
     concat ((λ row, (fold_left (formatToBinaryDataStep row) columnOrder (∅, [])).2)
               <$> data)).
Proof.
  revert newData out. induction data as [|row data IH]; intros newData out.
  - simpl. by rewrite !app_nil_r.
  - rewrite !fmap_cons. cbn [fold_left concat]. cbn beta.
    rewrite formatToBinaryDataRow_out. unfold formatToBinaryDataRow.
    destruct (fold_left (formatToBinaryDataStep row) columnOrder (∅, []))
      as [newRow out'] eqn:Hrow.
    cbn [fst snd]. rewrite IH. by rewrite <- !app_assoc.
Qed.

Lemma formatToBinaryData_rows (data : list Row) (columnOrder : list string) :
  (formatToBinaryData data columnOrder).1 =
  (λ row, (fold_left (formatToBinaryDataStep row) columnOrder (∅, [])).1) <$> data.
Proof. unfold formatToBinaryData. by rewrite formatToBinaryData_fold. Qed.

Lemma formatToBinaryData_stdout (data : list Row) (columnOrder : list string) :
  (formatToBinaryData data columnOrder).2 =
  concat ((λ row, (fold_left (formatToBinaryDataStep row) columnOrder (∅, [])).2)
            <$> data).
Proof. unfold formatToBinaryData. by rewrite formatToBinaryData_fold. Qed.

(** The pass keeps the number of records. *)
Lemma formatToBinaryData_length (data : list Row) (columnOrder : list string) :
  length (formatToBinaryData data columnOrder).1 = length data.
Proof. by rewrite formatToBinaryData_rows, length_fmap. Qed.

(** What the pass leaves at [col] in the record built from [row]: what one
    step assigns there, and nothing when [col] is not in the column order. *)
Lemma formatToBinaryData_lookup (data : list Row) (columnOrder : list string)
    (i : nat) (row : Row) (col : string) :
  data !! i = Some row →
  ∃ newRow : Row,
    (formatToBinaryData data columnOrder).1 !! i = Some newRow
    ∧ newRow !! col =
        if decide (col ∈ columnOrder)
        then (formatToBinaryDataStep row (∅, []) col).1 !! col
        else None.
Proof.
  intros Hrow. eexists. split.
  { rewrite formatToBinaryData_rows, list_lookup_fmap, Hrow. reflexivity. }
  rewrite (fold_left_lookup _ (formatToBinaryDataStep_lookup row)).
  rewrite lookup_empty. case_decide; [|done].
  by destruct ((formatToBinaryDataStep row (∅, []) col).1 !! col).
Qed.

(** A line printed by the step of a column of the column order is printed
    by the pass. *)
Lemma formatToBinaryDataStep_printed (row : Row) (cols : list string) (c : string)
    (m : Row) (out : list string) (line : string) :
  c ∈ cols → line ∈ (formatToBinaryDataStep row (∅, []) c).2 →
  line ∈ (fold_left (formatToBinaryDataStep row) cols (m, out)).2.
Proof.
  revert m out. induction cols as [|c' cols IH]; intros m out Hc Hline.
  - by apply elem_of_nil in Hc.
  - cbn [fold_left].
    destruct (formatToBinaryDataStep row (m, out) c') as [m' out'] eqn:Hstep.
    apply elem_of_cons in Hc as [<- | Hc]; [|by apply IH].
    rewrite (fold_left_out _ (formatToBinaryDataStep_out row)). cbn [snd].
    apply elem_of_app. left.
    rewrite formatToBinaryDataStep_out in Hstep. injection Hstep as _ <-.
    apply elem_of_app. right.
    (* the lines a step prints do not depend on the row built so far *)
    revert Hline. unfold formatToBinaryDataStep.
    destruct (index row c); simpl; try done.
    destruct (String.eqb c "time"); simpl; [|done].
    by destruct (time_Parse_RFC3339 s).
Qed.

End Binary.

Section BinaryClaims.

Context `{!Externals}.

(** C3: the main coercion pass maps a value by its dynamic type: a
    timestamp to a present timestamptz, a float to a present float8, an
    integer to a 32-bit integer, a boolean to a present bool, a string
    outside the time column to a present text; a value of a type the switch
    does not name is passed through unchanged. *)
Theorem formatToBinaryData_by_type (data : list Row) (columnOrder : list string)
    (i : nat) (row : Row) (col : string) :
  data !! i = Some row → col ∈ columnOrder →
  ∃ newRow : Row,
    (formatToBinaryData data columnOrder).1 !! i = Some newRow
    ∧ (∀ t, index row col = VTime t →
            newRow !! col =
            Some (VTimestamptz {| pgtype.Timestamptz_Time := t;
                                  pgtype.Timestamptz_Status := pgtype.Present |}))
    ∧ (∀ f, index row col = VFloat64 f →
            newRow !! col =
            Some (VFloat8 {| pgtype.Float8_Float := f;
                             pgtype.Float8_Status := pgtype.Present |}))
    ∧ (∀ n, index row col = VInt n →
            newRow !! col = Some (VInt32 (int32 n))
            ∧ (- 2 ^ 31 ≤ int32 n < 2 ^ 31)%Z
            ∧ ((- 2 ^ 31 ≤ n < 2 ^ 31)%Z → int32 n = n))
    ∧ (∀ b, index row col = VBool b →
            newRow !! col =
            Some (VPgBool {| pgtype.Bool_Bool := b;
                             pgtype.Bool_Status := pgtype.Present |}))
    ∧ (∀ s, index row col = VString s → col ≠ "time" →
            newRow !! col =
            Some (VText {| pgtype.Text_String := s;
                           pgtype.Text_Status := pgtype.Present |}))
    ∧ (∀ v, index row col = v → switched v = false → newRow !! col = Some v).
Proof.
  intros Hrow Hcol.
  destruct (formatToBinaryData_lookup data columnOrder i row col Hrow)
    as (newRow & Hnew & Hlook).
  exists newRow. split; [done |].
  rewrite decide_True in Hlook by done. rewrite Hlook.
  unfold formatToBinaryDataStep.
  split; [|split; [|split; [|split; [|split]]]].
  - intros t ->. simpl. by rewrite lookup_insert_eq.
  - intros f ->. simpl. by rewrite lookup_insert_eq.
  - intros n ->. simpl. rewrite lookup_insert_eq.
    split; [done |]. split; [apply int32_range | apply int32_small].
  - intros b ->. simpl. by rewrite lookup_insert_eq.
  - intros s -> Hne. apply String.eqb_neq in Hne. rewrite Hne. simpl.
    by rewrite lookup_insert_eq.
  - intros v Hv Hsw. rewrite Hv.
    destruct v; try discriminate Hsw; simpl; by rewrite lookup_insert_eq.
Qed.

(** C4, as the code has it: an output value whose input is a timestamp, a
    float, a boolean or a string carries a tag, and the tag is [Present];
    an integer comes out as a bare 32-bit integer, and a value of any other
    type (nil included) comes out as it went in, tagged only if it was. *)
Theorem formatToBinaryData_tagging (data : list Row) (columnOrder : list string)
    (i : nat) (row newRow : Row) (col : string) (v : Value) :
  data !! i = Some row →
  (formatToBinaryData data columnOrder).1 !! i = Some newRow →
  newRow !! col = Some v →
  match index row col with
  | VTime _ | VFloat64 _ | VBool _ | VString _ =>
      isTagged v = true ∧ statusOf v = Some pgtype.Present
  | VInt n => v = VInt32 (int32 n) ∧ isTagged v = false
  | w => v = w
  end.
Proof.
  intros Hrow Hnew Hv.
  destruct (formatToBinaryData_lookup data columnOrder i row col Hrow)
    as (newRow' & Hnew' & Hlook).
  rewrite Hnew in Hnew'. injection Hnew' as <-.
  rewrite Hv in Hlook. case_decide; [|done].
  revert Hlook. unfold formatToBinaryDataStep.
  destruct (index row col) eqn:Hidx; simpl; rewrite ?lookup_insert_eq;
    try (by intros [= ->]).
  destruct (String.eqb col "time"); simpl.
  - destruct (time_Parse_RFC3339 s); simpl; rewrite ?lookup_insert_eq;
      [by intros [= ->] | by rewrite lookup_empty].
  - rewrite lookup_insert_eq. by intros [= ->].
Qed.

End BinaryClaims.

(** The claim C4 as stated fails: the integer of the sample record comes
    out of the pass as a bare [int32], with no tag. *)
Lemma formatToBinaryData_untagged :
  ∃ (newRow : Row) (v : Value),
    (@formatToBinaryData sample_externals [sample_row] sample_columns).1 !! 0
      = Some newRow
    ∧ newRow !! "id" = Some v
    ∧ v = VInt32 1
    ∧ isTagged v = false.
Proof.
  eexists _, _. split; [reflexivity |]. split; [|split]; reflexivity.
Qed.

Lemma formatToBinaryData_tagging_witness :
  [sample_row] !! 0 = Some sample_row
  ∧ ∃ (newRow : Row) (v : Value),
      (@formatToBinaryData sample_externals [sample_row] sample_columns).1 !! 0
        = Some newRow
      ∧ newRow !! "val" = Some v
      ∧ isTagged v = true ∧ statusOf v = Some pgtype.Present.
Proof.
  split; [reflexivity |].
  eexists _, _. split; [reflexivity |]. split; [reflexivity |].
  exact (@formatToBinaryData_tagging sample_externals [sample_row] sample_columns
           0 sample_row _ "val" _ eq_refl eq_refl eq_refl).
Defined.

Lemma formatToBinaryData_by_type_witness :
  [sample_row] !! 0 = Some sample_row ∧ "id" ∈ sample_columns
  ∧ ∃ newRow : Row,
      (@formatToBinaryData sample_externals [sample_row] sample_columns).1 !! 0
        = Some newRow
      ∧ newRow !! "id" = Some (VInt32 (int32 1)).
Proof.
  split; [reflexivity |].
  assert ("id" ∈ sample_columns) as Hin by (by apply (bool_decide_unpack _)).
  split; [exact Hin |].
  destruct (@formatToBinaryData_by_type sample_externals [sample_row]
              sample_columns 0 sample_row "id" eq_refl Hin)
    as (newRow & Hnew & _ & _ & Hint & _).
  exists newRow. split; [exact Hnew |]. exact (proj1 (Hint 1%Z eq_refl)).
Defined.

(** ** The reverse pass *)

Section Native.

Context `{!Externals}.

Lemma formataToNativeTypeStep_lookup (col : string) (value : Value)
    (m : Row) (out : list string) (k : string) :
  (formataToNativeTypeStep col value (m, out)).1 !! k =
  if decide (k = col)
  then match (formataToNativeTypeStep col value (∅, [])).1 !! col with
       | Some v => Some v
       | None => m !! col
       end
  else m !! k.
Proof.
  unfold formataToNativeTypeStep.
  destruct (decide (k = col)) as [-> | Hne].
  - destruct value as [| | | | | | | | | |v|v|v|v|v|v|name st]; simpl;
      rewrite ?lookup_insert_eq; try done.
    + by destruct (pgtype.Timestamptz_Status v); simpl; rewrite ?lookup_insert_eq.
    + by destruct (pgtype.Float8_Status v); simpl; rewrite ?lookup_insert_eq.
    + by destruct (pgtype.Int4_Status v); simpl; rewrite ?lookup_insert_eq.
    + by destruct (pgtype.Bool_Status v); simpl; rewrite ?lookup_insert_eq.
    + by destruct (pgtype.Text_Status v); simpl; rewrite ?lookup_insert_eq.
    + destruct (pgtype.Numeric_Status v); simpl; try done.
      destruct (Numeric_Value v) as [decimalVal|]; simpl; [|done].
      by destruct (decimal_NewFromString decimalVal); simpl;
        rewrite ?lookup_insert_eq.
  - destruct value as [| | | | | | | | | |v|v|v|v|v|v|name st]; simpl;
      rewrite ?lookup_insert_ne by done; try done.
    + by destruct (pgtype.Timestamptz_Status v); simpl; rewrite ?lookup_insert_ne.
    + by destruct (pgtype.Float8_Status v); simpl; rewrite ?lookup_insert_ne.
    + by destruct (pgtype.Int4_Status v); simpl; rewrite ?lookup_insert_ne.
    + by destruct (pgtype.Bool_Status v); simpl; rewrite ?lookup_insert_ne.
    + by destruct (pgtype.Text_Status v); simpl; rewrite ?lookup_insert_ne.
    + destruct (pgtype.Numeric_Status v); simpl; try done.
      destruct (Numeric_Value v) as [decimalVal|]; simpl; [|done].
      by destruct (decimal_NewFromString decimalVal); simpl;
        rewrite ?lookup_insert_ne.
Qed.

Lemma formataToNativeType_row (row : Row) (out : list string) :
  nativeOf row (map_fold formataToNativeTypeStep (∅, out) row).1.
Proof.
  apply (map_fold_weak_ind (λ r m, nativeOf m r.1)).
  - intros k. by rewrite !lookup_empty.
  - intros i x m [r out'] Hi IH k. rewrite formataToNativeTypeStep_lookup.
    destruct (decide (k = i)) as [-> | Hne].
    + rewrite lookup_insert_eq. simpl in IH. rewrite (IH i), Hi.
      by destruct ((formataToNativeTypeStep i x (∅, [])).1 !! i).
    + rewrite lookup_insert_ne by done. apply IH.
Qed.

Lemma formataToNativeType_fold (data acc : list Row) (out : list string) :
  ∃ rows : list Row,
    (fold_left formataToNativeTypeRow data (acc, out)).1 = acc ++ rows
    ∧ Forall2 nativeOf data rows.
Proof.
  revert acc out. induction data as [|row data IH]; intros acc out.
  - exists []. split; [by rewrite app_nil_r | constructor].
  - cbn [fold_left]. unfold formataToNativeTypeRow at 2.
    pose proof (formataToNativeType_row row out) as Hrow.
    destruct (map_fold formataToNativeTypeStep (∅, out) row) as [newRow out'].
    destruct (IH (acc ++ [newRow]) out') as (rows & Heq & Hall).
    exists (newRow :: rows). split.
    + rewrite Heq. by rewrite <- app_assoc.
    + by constructor.
Qed.

Lemma formataToNativeType_lookup (data : list Row) (i : nat) (row : Row) :
  data !! i = Some row →
  ∃ newRow : Row,
    (formataToNativeType data).1 !! i = Some newRow ∧ nativeOf row newRow.
Proof.
  intros Hrow. unfold formataToNativeType.
  destruct (formataToNativeType_fold data [] []) as (rows & -> & Hall).
  destruct (Forall2_lookup_l _ _ _ _ _ Hall Hrow) as (newRow & Hnew & Hnat).
  by exists newRow.
Qed.

(** What a step prints is appended to what was printed before, and does
    not depend on the record built so far. *)
Lemma formataToNativeTypeStep_out (col : string) (value : Value)
    (m : Row) (out : list string) :
  (formataToNativeTypeStep col value (m, out)).2 =
  out ++ (formataToNativeTypeStep col value (∅, [])).2.
Proof.
  unfold formataToNativeTypeStep.
  destruct value as [| | | | | | | | | |v|v|v|v|v|v|name st]; cbn [snd];
    rewrite ?app_nil_r; try done.
  - by destruct (pgtype.Timestamptz_Status v); cbn [snd]; rewrite ?app_nil_r.
  - by destruct (pgtype.Float8_Status v); cbn [snd]; rewrite ?app_nil_r.
  - by destruct (pgtype.Int4_Status v); cbn [snd]; rewrite ?app_nil_r.
  - by destruct (pgtype.Bool_Status v); cbn [snd]; rewrite ?app_nil_r.
  - by destruct (pgtype.Text_Status v); cbn [snd]; rewrite ?app_nil_r.
  - destruct (pgtype.Numeric_Status v); cbn [snd]; rewrite ?app_nil_r; try done.
    destruct (Numeric_Value v) as [decimalVal|]; cbn [snd]; [|done].
    by destruct (decimal_NewFromString decimalVal); cbn [snd]; rewrite ?app_nil_r.
Qed.

(** The lines printed for a record: those printed before it, and those of
    each of its entries. *)
Lemma formataToNativeType_row_printed (row : Row) (out : list string) :
  (∀ line, line ∈ out → line ∈ (map_fold formataToNativeTypeStep (∅, out) row).2)
  ∧ (∀ k value line,
       row !! k = Some value →
       line ∈ (formataToNativeTypeStep k value (∅, [])).2 →
       line ∈ (map_fold formataToNativeTypeStep (∅, out) row).2).
Proof.
  apply (map_fold_weak_ind
           (λ r m, (∀ line, line ∈ out → line ∈ r.2)
                   ∧ (∀ k value line,
                        m !! k = Some value →
                        line ∈ (formataToNativeTypeStep k value (∅, [])).2 →
                        line ∈ r.2))).
  - split; [done |]. intros k value line Hk. by rewrite lookup_empty in Hk.
  - intros i x m [r out'] Hi [IHout IHrow]. cbn [snd] in IHout, IHrow.
    rewrite formataToNativeTypeStep_out. split.
    + intros line Hline. apply elem_of_app. left. by apply IHout.
    + intros k value line Hk Hline. apply elem_of_app.
      destruct (decide (k = i)) as [-> | Hne].
      * rewrite lookup_insert_eq in Hk. injection Hk as ->. by right.
      * rewrite lookup_insert_ne in Hk by done. left. by eapply IHrow.
Qed.

Lemma formataToNativeType_fold_printed (data acc : list Row) (out : list string) :
  (∀ line, line ∈ out → line ∈ (fold_left formataToNativeTypeRow data (acc, out)).2)
  ∧ (∀ row k value line,
       row ∈ data → row !! k = Some value →
       line ∈ (formataToNativeTypeStep k value (∅, [])).2 →
       line ∈ (fold_left formataToNativeTypeRow data (acc, out)).2).
Proof.
  revert acc out. induction data as [|row' data IH]; intros acc out.
  - split; [done |]. intros row k value line Hrow. by apply elem_of_nil in Hrow.
  - cbn [fold_left]. unfold formataToNativeTypeRow at 2 4.
    destruct (formataToNativeType_row_printed row' out) as [Hout Hprinted].
    destruct (map_fold formataToNativeTypeStep (∅, out) row') as [newRow out'].
    cbn [snd] in Hout, Hprinted.
    destruct (IH (acc ++ [newRow]) out') as [IHout IHrow].
    split.
    + intros line Hline. by apply IHout, Hout.
    + intros row k value line Hrow Hk Hline.
      apply elem_of_cons in Hrow as [-> | Hrow].
      * by eapply IHout, Hprinted.
      * by eapply IHrow.
Qed.

(** C10, as the code has it: a column whose tagged value is not [Present]
    is absent from the returned record; a present timestamptz, float8, int4,
    bool or text is unwrapped; a present numeric whose text converts to a
    decimal becomes that decimal's float, and one whose conversion fails is
    reported on standard output, by the line of the step that failed, and
    its column left out. *)
Theorem formataToNativeType_unwrap (data : list Row) (i : nat) (row : Row)
    (col : string) (value : Value) :
  data !! i = Some row → row !! col = Some value →
  ∃ newRow : Row,
    (formataToNativeType data).1 !! i = Some newRow
    ∧ (isTagged value = true → statusOf value ≠ Some pgtype.Present →
       newRow !! col = None)
    ∧ (∀ v, value = VTimestamptz v → pgtype.Timestamptz_Status v = pgtype.Present →
            newRow !! col = Some (VTime (pgtype.Timestamptz_Time v)))
    ∧ (∀ v, value = VFloat8 v → pgtype.Float8_Status v = pgtype.Present →
            newRow !! col = Some (VFloat64 (pgtype.Float8_Float v)))
    ∧ (∀ v, value = VInt4 v → pgtype.Int4_Status v = pgtype.Present →
            newRow !! col = Some (VInt (pgtype.Int4_Int v)))
    ∧ (∀ v, value = VPgBool v → pgtype.Bool_Status v = pgtype.Present →
            newRow !! col = Some (VBool (pgtype.Bool_Bool v)))
    ∧ (∀ v, value = VText v → pgtype.Text_Status v = pgtype.Present →
            newRow !! col = Some (VString (pgtype.Text_String v)))
    ∧ (∀ v, value = VNumeric v → pgtype.Numeric_Status v = pgtype.Present →
            newRow !! col =
            match Numeric_Value v with
            | inl decimalVal =>
                match decimal_NewFromString decimalVal with
                | inl decimalValue => Some (VFloat64 (Decimal_Float64 decimalValue))
                | inr _ => None
                end
            | inr _ => None
            end)
    ∧ (isTagged value = false → newRow !! col = Some value)
    ∧ (∀ v err, value = VNumeric v → pgtype.Numeric_Status v = pgtype.Present →
                Numeric_Value v = inr err →
                ("Error converting Numeric to decimal.Decimal: "
                 +:+ Error err +:+ newline) ∈ (formataToNativeType data).2)
    ∧ (∀ v decimalVal err,
         value = VNumeric v → pgtype.Numeric_Status v = pgtype.Present →
         Numeric_Value v = inl decimalVal →
         decimal_NewFromString decimalVal = inr err →
         ("Error converting string to decimal.Decimal: "
          +:+ Error err +:+ newline) ∈ (formataToNativeType data).2).
Proof.
  intros Hrow Hcol.
  assert (∀ line, line ∈ (formataToNativeTypeStep col value (∅, [])).2 →
                  line ∈ (formataToNativeType data).2) as Hprinted.
  { intros line Hline.
    apply (proj2 (formataToNativeType_fold_printed data [] []) row col value);
      [by eapply list_elem_of_lookup_2 | done | done]. }
  destruct (formataToNativeType_lookup data i row Hrow) as (newRow & Hnew & Hnat).
  exists newRow. split; [done |].
  rewrite (Hnat col), Hcol. unfold formataToNativeTypeStep in *.
  split; [|split; [|split; [|split; [|split; [|split; [|split; [|split; [|split]]]]]]]].
  - intros Htag Hst.
    destruct value as [| | | | | | | | | |v|v|v|v|v|v|name st]; try discriminate Htag;
      simpl in Hst |- *.
    + by destruct (pgtype.Timestamptz_Status v).
    + by destruct (pgtype.Float8_Status v).
    + by destruct (pgtype.Int4_Status v).
    + by destruct (pgtype.Bool_Status v).
    + by destruct (pgtype.Text_Status v).
    + by destruct (pgtype.Numeric_Status v).
  - intros v -> ->. simpl. by rewrite lookup_insert_eq.
  - intros v -> ->. simpl. by rewrite lookup_insert_eq.
  - intros v -> ->. simpl. by rewrite lookup_insert_eq.
  - intros v -> ->. simpl. by rewrite lookup_insert_eq.
  - intros v -> ->. simpl. by rewrite lookup_insert_eq.
  - intros v -> ->. simpl.
    destruct (Numeric_Value v) as [decimalVal|]; simpl; [|done].
    destruct (decimal_NewFromString decimalVal); simpl; [|done].
    by rewrite lookup_insert_eq.
  - intros Htag. destruct value; try discriminate Htag; simpl;
      by rewrite lookup_insert_eq.
  - intros v err -> Hst Hval. apply Hprinted. cbn. rewrite Hst, Hval. cbn.
    by left.
  - intros v decimalVal err -> Hst Hval Hdec. apply Hprinted. cbn.
    rewrite Hst, Hval, Hdec. cbn. by left.
Qed.

End Native.

(** The claim C10 as stated fails on a present numeric that is not a
    number: its text is [NaN], no decimal is read from it, and the column
    is left out although its tag is [Present]; the failure is printed. *)
Lemma formataToNativeType_drops_present_NaN :
  ∃ newRow : Row,
    (@formataToNativeType sample_externals [sample_fetched_NaN]).1 !! 0 = Some newRow
    ∧ sample_fetched_NaN !! "price" = Some (VNumeric sample_numeric_NaN)
    ∧ statusOf (VNumeric sample_numeric_NaN) = Some pgtype.Present
    ∧ newRow !! "price" = None
    ∧ (@formataToNativeType sample_externals [sample_fetched_NaN]).2 =
      ["Error converting string to decimal.Decimal: "
       +:+ "can't convert NaN to decimal" +:+ newline].
Proof.
  eexists. split; [reflexivity |]. split; [reflexivity |].
  split; [reflexivity |]. split; reflexivity.
Qed.

Lemma formataToNativeType_unwrap_witness :
  [sample_fetched] !! 0 = Some sample_fetched
  ∧ sample_fetched !! "price" = Some (VNumeric sample_numeric)
  ∧ (∃ newRow : Row,
       (@formataToNativeType sample_externals [sample_fetched]).1 !! 0 = Some newRow
       ∧ newRow !! "price" = Some (VFloat64 sample_float))
  ∧ ("Error converting string to decimal.Decimal: "
     +:+ "can't convert NaN to decimal" +:+ newline)
    ∈ (@formataToNativeType sample_externals [sample_fetched_NaN]).2.
Proof.
  split; [reflexivity |]. split; [reflexivity |]. split.
  - destruct (@formataToNativeType_unwrap sample_externals [sample_fetched] 0
                sample_fetched "price" (VNumeric sample_numeric) eq_refl eq_refl)
      as (newRow & Hnew & _ & _ & _ & _ & _ & _ & Hnum & _).
    exists newRow. split; [exact Hnew |].
    exact (Hnum sample_numeric eq_refl eq_refl).
  - destruct (@formataToNativeType_unwrap sample_externals [sample_fetched_NaN] 0
                sample_fetched_NaN "price" (VNumeric sample_numeric_NaN)
                eq_refl eq_refl)
      as (newRow & _ & _ & _ & _ & _ & _ & _ & _ & _ & _ & Hreport).
    exact (Hreport sample_numeric_NaN "NaN"
             (errorString "can't convert NaN to decimal")
             eq_refl eq_refl eq_refl eq_refl).
Defined.

Example formataToNativeType_sample :
  (@formataToNativeType sample_externals [sample_fetched]).1 =
  [<["price" := VFloat64 sample_float]> (<["qty" := VInt 3]> ∅)].
Proof. vm_compute. reflexivity. Qed.

(** ** The bulk-load cursor *)

Lemma fillValues_spec (row : Row) (cols : list string) (pre : list Value) :
  fillValues row (length pre) cols (pre ++ replicate (length cols) VNil) =
  pre ++ (index row <$> cols).
Proof.
  revert pre. induction cols as [|col cols IH]; intros pre; [done |].
  cbn [fillValues length replicate fmap list_fmap].
  replace (<[length pre := index row col]> (pre ++ VNil :: replicate (length cols) VNil))
    with ((pre ++ [index row col]) ++ replicate (length cols) VNil).
  - replace (S (length pre)) with (length (pre ++ [index row col]))
      by (rewrite length_app; simpl; lia).
    rewrite IH. by rewrite <- app_assoc.
  - rewrite <- app_assoc. simpl.
    by rewrite (insert_app_r_alt pre), Nat.sub_diag by lia.
Qed.

Lemma Values_more (m : mapCopyFromSource) (row : Row) :
  data m !! pos m = Some row →
  Values m =
  (inl (index row <$> columns m),
   {| data := data m; pos := S (pos m); columns := columns m |}).
Proof.
  intros Hrow. unfold Values, Next.
  rewrite bool_decide_eq_true_2 by (by eapply lookup_lt_Some).
  pose proof (fillValues_spec row (columns m) []) as Hfill. simpl in Hfill.
  simpl. rewrite Hrow. simpl. by rewrite Hfill.
Qed.

Lemma Values_done (m : mapCopyFromSource) :
  length (data m) ≤ pos m → Values m = (inr EOF, m).
Proof.
  intros Hpos. unfold Values, Next.
  by rewrite bool_decide_eq_false_2 by lia.
Qed.

Lemma afterValues_S (k : nat) (m : mapCopyFromSource) :
  afterValues (S k) m = (Values (afterValues k m)).2.
Proof.
  revert m. induction k as [|k IH]; intros m; [done |].
  change (afterValues (S (S k)) m) with (afterValues (S k) (Values m).2).
  by rewrite IH.
Qed.

Lemma afterValues_pos (k : nat) (m : mapCopyFromSource) :
  pos m ≤ length (data m) →
  afterValues k m =
  {| data := data m; pos := (pos m + k) `min` length (data m); columns := columns m |}.
Proof.
  revert m. induction k as [|k IH]; intros [d p c] Hpos; simpl in *.
  - f_equal. lia.
  - destruct (decide (p < length d)) as [Hlt | Hge].
    + destruct (lookup_lt_is_Some_2 d p Hlt) as [row Hrow].
      rewrite (Values_more _ row) by done. cbn [snd data pos columns].
      rewrite IH by (cbn [data pos]; lia). cbn [data pos columns]. f_equal. lia.
    + rewrite Values_done by (cbn [data pos]; lia). cbn [snd].
      rewrite IH by (cbn [data pos]; lia). cbn [data pos columns]. f_equal. lia.
Qed.

Lemma readRows_all (fuel : nat) (m : mapCopyFromSource) :
  pos m ≤ length (data m) → length (data m) - pos m ≤ fuel →
  readRows fuel m =
  (inl ((λ row, index row <$> columns m) <$> drop (pos m) (data m)),
   {| data := data m; pos := length (data m); columns := columns m |}).
Proof.
  revert m. induction fuel as [|fuel IH]; intros [d p c] Hpos Hfuel;
    cbn [data pos columns] in *.
  - assert (p = length d) as -> by lia. by rewrite drop_all.
  - cbn [readRows]. unfold Next. cbn [data pos columns].
    destruct (decide (p < length d)) as [Hlt | Hge].
    + rewrite bool_decide_eq_true_2 by done.
      destruct (lookup_lt_is_Some_2 d p Hlt) as [row Hrow].
      rewrite (Values_more _ row) by done. cbn [data pos columns].
      rewrite IH by (cbn [data pos]; lia). cbn [data pos columns].
      by rewrite (drop_S d row p Hrow).
    + rewrite bool_decide_eq_false_2 by done.
      assert (p = length d) as -> by lia. by rewrite drop_all.
Qed.

(** C5: [Next] tells whether rows remain and leaves the cursor as it is;
    the [i]-th call of [Values] returns the [i]-th record's values in the
    order of the columns; the call after the last record, and every later
    one, returns [io.EOF] and leaves the cursor exhausted; [Err] returns
    nil. *)
Theorem mapCopyFromSource_single_pass (records : list Row) (C : list string) :
  (∀ m, (Next m).2 = m ∧ ((Next m).1 = true ↔ pos m < length (data m)))
  ∧ (∀ k, (Next (afterValues k (newMapCopyFromSource records C))).1 = true
          ↔ k < length records)
  ∧ (∀ i row, records !! i = Some row →
       Values (afterValues i (newMapCopyFromSource records C)) =
       (inl ((λ col, index row col) <$> C),
        afterValues (S i) (newMapCopyFromSource records C)))
  ∧ (∀ k, length records ≤ k →
       Values (afterValues k (newMapCopyFromSource records C)) =
       (inr EOF, afterValues k (newMapCopyFromSource records C))
       ∧ afterValues (S k) (newMapCopyFromSource records C) =
         afterValues k (newMapCopyFromSource records C))
  ∧ (∀ m, Err m = (None, m)).
Proof.
  assert (∀ k, afterValues k (newMapCopyFromSource records C) =
               {| data := records; pos := k `min` length records; columns := C |})
    as Hafter.
  { intros k. rewrite afterValues_pos by (simpl; lia). reflexivity. }
  split; [|split; [|split; [|split]]].
  - intros m. split; [done |]. unfold Next. cbn [fst]. by rewrite bool_decide_eq_true.
  - intros k. rewrite Hafter. unfold Next. cbn [fst data pos].
    rewrite bool_decide_eq_true. lia.
  - intros i row Hrow. rewrite !Hafter.
    pose proof (lookup_lt_Some _ _ _ Hrow) as Hlt.
    rewrite (Values_more _ row) by (cbn [data pos]; by rewrite Nat.min_l by lia).
    cbn [data pos columns]. do 2 f_equal. lia.
  - intros k Hk.
    assert (Values (afterValues k (newMapCopyFromSource records C)) =
            (inr EOF, afterValues k (newMapCopyFromSource records C))) as Heof.
    { rewrite !Hafter. apply Values_done. cbn [data pos]. lia. }
    split; [done |]. by rewrite afterValues_S, Heof.
  - done.
Qed.

Example mapCopyFromSource_sample :
  (Values (newMapCopyFromSource [sample_row_bad] ["id"; "seq"; "val"])).1 =
  inl [VInt 2; VNil; VString "b"].
Proof. reflexivity. Qed.

(** ** The transaction *)

Lemma printAll_run (lines : list string) (w : World) :
  printAll lines w =
  (tt, {| committed := committed w; txStatus := txStatus w;
          txWrites := txWrites w; trace := trace w ++ (EvStdout <$> lines) |}).
Proof.
  revert w. induction lines as [|line lines IH]; intros [c st tw tr].
  - simpl. by rewrite app_nil_r.
  - cbn [printAll]. unfold mbind, M_bind, emit. cbn [committed txStatus txWrites trace].
    rewrite IH. cbn [committed txStatus txWrites trace fmap list_fmap].
    by rewrite <- app_assoc.
Qed.

Lemma readRows_new (rows : list Row) (cols : list string) :
  (readRows (length (data (newMapCopyFromSource rows cols)))
     (newMapCopyFromSource rows cols)).1 =
  inl ((λ row, index row <$> cols) <$> rows).
Proof.
  rewrite readRows_all by (cbn [newMapCopyFromSource data pos]; lia). done.
Qed.

Lemma firstError_answers_cases (a b c d : option error) :
  firstError [a; b; c; d] =
  match a with
  | Some err => Some err
  | None =>
      match b with
      | Some err => Some err
      | None =>
          match c with
          | Some err => Some err
          | None => d
          end
      end
  end.
Proof. by destruct a, b, c, d. Qed.

Lemma run_eq (r r' : option error) (c c' : list DbWrite) (tr tr' : list Event) :
  r = r' → c = c' → tr = tr' →
  (r, {| committed := c; txStatus := TxClosed; txWrites := []; trace := tr |}) =
  (r', {| committed := c'; txStatus := TxClosed; txWrites := []; trace := tr' |}).
Proof. by intros -> -> ->. Qed.

Ltac close_run :=
  split; [|reflexivity];
  apply run_eq; [reflexivity | reflexivity | rewrite <- !app_assoc; reflexivity].

Section Transaction.

Context `{!Externals}.

(** One call that got its transaction: what it returns, and the world it
    leaves, with the calls up to [Begin] in its trace. [ret] is what the
    deferred [Rollback] returned. *)
Lemma InsertBulkData_run_steps (s : Script) (records : list Row) (table : string)
    (primaryKey : list string) (timeout : Z) (w : World) :
  records ≠ [] → Begin_err s = None →
  ∃ (rest : list Event) (ret : option error),
    InsertBulkData s records table primaryKey timeout w =
    (firstError (answers s records table primaryKey),
     {| committed :=
          match firstError (answers s records table primaryKey) with
          | None => committed w ++ stagedWrites s records table primaryKey
          | Some _ => committed w
          end;
        txStatus := TxClosed;
        txWrites := [];
        trace := trace w
                 ++ ([EvWithTimeout timeout]
                     ++ (EvStdout <$> (formatToBinaryData
                                         (formatTimestamps records
                                            (getColumns s records))
                                         (getColumns s records)).2)
                     ++ [EvBegin None] ++ rest)
                 ++ [EvRollback ret; EvCancel] |})
    ∧ ret =
        match firstError (take 3 (answers s records table primaryKey)) with
        | None => Some ErrTxClosed
        | Some _ => Rollback_err s
        end.
Proof.
  intros Hdata Hbegin. destruct w as [c st tw tr].
  unfold InsertBulkData.
  rewrite bool_decide_eq_false_2 by (by destruct records).
  unfold answers, stagedWrites, stagedRows.
  set (columns := getColumns s records).
  set (tempTable := generateUniqueTempTableName (uuid_New s) table).
  destruct (formatToBinaryData (formatTimestamps records columns) columns)
    as [coerced stdout] eqn:Hfmt.
  cbn [fst snd].
  set (create := createTempStmt tempTable table).
  set (merge := insertStmt table columns tempTable primaryKey).
  set (rows := (λ row, index row <$> columns) <$> coerced).
  unfold defer, mbind, M_bind, mret, M_ret, emit.
  cbn [committed txStatus txWrites trace].
  rewrite printAll_run. cbn [committed txStatus txWrites trace].
  unfold Pool_Begin. rewrite Hbegin. cbn [committed txStatus txWrites trace].
  unfold tx_Exec at 1. unfold tx_write at 1. cbn [committed txStatus txWrites trace].
  rewrite firstError_answers_cases. cbn [take].
  destruct (Exec_err s create) as [err|] eqn:Hcreate.
  { unfold tx_Rollback. cbn [committed txStatus txWrites trace].
    exists ([EvExec create (Some err)]), (Rollback_err s).
    close_run. }
  unfold tx_CopyFrom.
  pose proof (readRows_new coerced columns) as Hread.
  destruct (readRows (length (data (newMapCopyFromSource coerced columns)))
              (newMapCopyFromSource coerced columns)) as [rows' m'].
  cbn [fst] in Hread. subst rows'. fold rows.
  unfold tx_write at 1. cbn [committed txStatus txWrites trace].
  destruct (CopyFrom_err s tempTable columns rows) as [err|] eqn:Hcopy.
  { unfold logCopyError, tx_Rollback, mbind, M_bind, mret, M_ret, emit.
    cbn [committed txStatus txWrites trace].
    exists ([EvExec create None]
            ++ [EvCopyFrom tempTable columns rows (Some err)]
            ++ [EvLog ("Error during COPY operation: " +:+ Error err)]
            ++ match err with
               | PgError _ =>
                   [EvLog ("Error details:" +:+ newline +:+ Error err +:+ newline)]
               | _ => []
               end), (Rollback_err s).
    destruct err; cbn [committed txStatus txWrites trace]; close_run. }
  unfold tx_Exec, tx_write. cbn [committed txStatus txWrites trace].
  destruct (Exec_err s merge) as [err|] eqn:Hmerge.
  { unfold tx_Rollback. cbn [committed txStatus txWrites trace].
    exists ([EvExec create None]
            ++ [EvCopyFrom tempTable columns rows None]
            ++ [EvExec merge (Some err)]), (Rollback_err s).
    close_run. }
  unfold tx_Commit, tx_Rollback. cbn [committed txStatus txWrites trace].
  exists ([EvExec create None]
          ++ [EvCopyFrom tempTable columns rows None]
          ++ [EvExec merge None]
          ++ [EvCommit (Commit_err s)]), (Some ErrTxClosed).
  destruct (Commit_err s) as [err|] eqn:Hcommit;
    cbn [committed txStatus txWrites trace]; close_run.
Qed.

(** One call that got its transaction: what it returns, and the world it
    leaves. [ret] is what the deferred [Rollback] returned. *)
Lemma InsertBulkData_run (s : Script) (records : list Row) (table : string)
    (primaryKey : list string) (timeout : Z) (w : World) :
  records ≠ [] → Begin_err s = None →
  ∃ (steps : list Event) (ret : option error),
    InsertBulkData s records table primaryKey timeout w =
    (firstError (answers s records table primaryKey),
     {| committed :=
          match firstError (answers s records table primaryKey) with
          | None => committed w ++ stagedWrites s records table primaryKey
          | Some _ => committed w
          end;
        txStatus := TxClosed;
        txWrites := [];
        trace := trace w ++ steps ++ [EvRollback ret; EvCancel] |})
    ∧ ret =
        match firstError (take 3 (answers s records table primaryKey)) with
        | None => Some ErrTxClosed
        | Some _ => Rollback_err s
        end.
Proof.
  intros Hdata Hbegin.
  destruct (InsertBulkData_run_steps s records table primaryKey timeout w
              Hdata Hbegin) as (rest & ret & Hrun & Hret).
  eexists _, ret. split; [exact Hrun | exact Hret].
Qed.

(** C1: once the transaction is begun, the call returns the error of the
    first step that fails (staging table, bulk copy, merge or commit); the
    deferred [Rollback] is the last call on the transaction before the call
    returns, and the transaction is closed at return. On an error nothing
    the call wrote is committed; a failure before the commit is rolled back
    on the open transaction. When the commit succeeds the writes are
    committed and the deferred [Rollback] is refused with [ErrTxClosed]. *)
Theorem InsertBulkData_rollback (s : Script) (records : list Row) (table : string)
    (primaryKey : list string) (timeout : Z) (w : World) :
  records ≠ [] → Begin_err s = None →
  ∃ (w' : World) (steps : list Event) (ret : option error),
    InsertBulkData s records table primaryKey timeout w =
      (firstError (answers s records table primaryKey), w')
    ∧ trace w' = trace w ++ steps ++ [EvRollback ret; EvCancel]
    ∧ txStatus w' = TxClosed
    ∧ (∀ err, firstError (answers s records table primaryKey) = Some err →
              committed w' = committed w)
    ∧ (∀ err, firstError (take 3 (answers s records table primaryKey)) = Some err →
              ret = Rollback_err s)
    ∧ (firstError (answers s records table primaryKey) = None →
       committed w' = committed w ++ stagedWrites s records table primaryKey
       ∧ ret = Some ErrTxClosed).
Proof.
  intros Hrecords Hbegin.
  destruct (InsertBulkData_run s records table primaryKey timeout w Hrecords Hbegin)
    as (steps & ret & Hrun & Hret).
  eexists _, steps, ret. split; [exact Hrun |].
  cbn [trace txStatus committed].
  split; [done |]. split; [done |]. split; [|split].
  - by intros err ->.
  - intros err Herr. by rewrite Hret, Herr.
  - intros Hnone. rewrite Hnone. split; [done |].
    rewrite Hret. unfold answers in *. cbn [take firstError] in *.
    repeat match goal with
           | H : context [match ?a with Some _ => _ | None => _ end] |- _ =>
               destruct a; try discriminate H
           end; done.
Qed.

(** C8: with no record the call returns nil and touches nothing: no
    transaction is begun, no statement runs, nothing is written or printed. *)
Theorem InsertBulkData_empty (s : Script) (records : list Row) (table : string)
    (primaryKey : list string) (timeout : Z) (w : World) :
  length records = 0 →
  ∃ w' : World,
    InsertBulkData s records table primaryKey timeout w = (None, w')
    ∧ w' = w
    ∧ trace w' = trace w
    ∧ txStatus w' = txStatus w
    ∧ committed w' = committed w.
Proof.
  intros Hlen. exists w. split; [|done].
  unfold InsertBulkData. by rewrite bool_decide_eq_true_2.
Qed.

(** C6: a string of the time column that does not parse as RFC3339 is
    reported on standard output and left out of the coerced record. The
    pass goes on: every other field of that record and every field of every
    other record is coerced by its type, as if nothing had failed. In the
    call, where the pass runs on what [formatTimestamps] returns over the
    columns of [getColumns], the line is printed, the record reaches the
    server with nil in its time column, and the call returns what the
    server answers and nothing else: it commits every record when every
    step is accepted. *)
Theorem time_parse_failure_not_fatal (records : list Row) (columnOrder : list string)
    (i : nat) (row : Row) (v : string) (err : error) :
  records !! i = Some row → "time" ∈ columnOrder →
  index row "time" = VString v → time_Parse_RFC3339 v = inr err →
  (∃ newRow : Row,
      (formatToBinaryData records columnOrder).1 !! i = Some newRow
      ∧ newRow !! "time" = None
      ∧ (∀ col, col ∈ columnOrder → col ≠ "time" → is_Some (newRow !! col)))
  ∧ ("Error parsing time: " +:+ Error err +:+ newline)
      ∈ (formatToBinaryData records columnOrder).2
  ∧ length (formatToBinaryData records columnOrder).1 = length records
  ∧ (∀ j row' col, records !! j = Some row' → col ∈ columnOrder →
       ∃ newRow' : Row,
         (formatToBinaryData records columnOrder).1 !! j = Some newRow'
         ∧ newRow' !! col =
             match index row' col with
             | VTime t =>
                 Some (VTimestamptz {| pgtype.Timestamptz_Time := t;
                                       pgtype.Timestamptz_Status := pgtype.Present |})
             | VFloat64 f =>
                 Some (VFloat8 {| pgtype.Float8_Float := f;
                                  pgtype.Float8_Status := pgtype.Present |})
             | VInt n => Some (VInt32 (int32 n))
             | VBool b =>
                 Some (VPgBool {| pgtype.Bool_Bool := b;
                                  pgtype.Bool_Status := pgtype.Present |})
             | VString str =>
                 if String.eqb col "time" then
                   match time_Parse_RFC3339 str with
                   | inl t =>
                       Some (VTimestamptz
                               {| pgtype.Timestamptz_Time := t;
                                  pgtype.Timestamptz_Status := pgtype.Present |})
                   | inr _ => None
                   end
                 else
                   Some (VText {| pgtype.Text_String := str;
                                  pgtype.Text_Status := pgtype.Present |})
             | other => Some other
             end)
  ∧ (∀ s raw table primaryKey timeout w,
       Begin_err s = None →
       columnOrder = getColumns s raw →
       records = formatTimestamps raw columnOrder →
       ∃ (w' : World) (values : list Value),
         InsertBulkData s raw table primaryKey timeout w =
           (firstError (answers s raw table primaryKey), w')
         ∧ EvStdout ("Error parsing time: " +:+ Error err +:+ newline) ∈ trace w'
         ∧ stagedRows s raw =
             (λ newRow, index newRow <$> columnOrder)
               <$> (formatToBinaryData records columnOrder).1
         ∧ stagedRows s raw !! i = Some values
         ∧ (∀ j, columnOrder !! j = Some "time" → values !! j = Some VNil)
         ∧ (firstError (answers s raw table primaryKey) = None →
            committed w' = committed w ++ stagedWrites s raw table primaryKey)).
Proof.
  intros Hrow Htime Hv Herr.
  assert ((formatToBinaryDataStep row (∅, []) "time") =
          (∅, ["Error parsing time: " +:+ Error err +:+ newline])) as Hstep.
  { unfold formatToBinaryDataStep. rewrite Hv. cbn. by rewrite Herr. }
  assert (∃ newRow : Row,
             (formatToBinaryData records columnOrder).1 !! i = Some newRow
             ∧ newRow !! "time" = None) as (newRow & Hnew & Hnone).
  { destruct (formatToBinaryData_lookup records columnOrder i row "time" Hrow)
      as (newRow & Hnew & Hlook).
    exists newRow. split; [done |].
    rewrite Hlook, decide_True, Hstep by done. apply lookup_empty. }
  assert (("Error parsing time: " +:+ Error err +:+ newline)
            ∈ (formatToBinaryData records columnOrder).2) as Hline.
  { rewrite formatToBinaryData_stdout.
    apply list_elem_of_In, in_concat.
    exists (fold_left (formatToBinaryDataStep row) columnOrder (∅, [])).2.
    split.
    + apply list_elem_of_In, list_elem_of_fmap. exists row.
      split; [done |]. by eapply list_elem_of_lookup_2.
    + apply list_elem_of_In.
      apply (formatToBinaryDataStep_printed row columnOrder "time"); [done |].
      rewrite Hstep. by left. }
  split; [|split; [|split; [|split]]].
  - exists newRow. split; [done |]. split; [done |].
    intros col Hcol Hne.
    destruct (formatToBinaryData_lookup records columnOrder i row col Hrow)
      as (newRow' & Hnew' & Hlook').
    rewrite Hnew in Hnew'. injection Hnew' as <-.
    rewrite Hlook', decide_True by done.
    apply String.eqb_neq in Hne. unfold formatToBinaryDataStep.
    destruct (index row col); simpl; rewrite ?Hne; simpl;
      rewrite lookup_insert_eq; by eexists.
  - exact Hline.
  - apply formatToBinaryData_length.
  - intros j row' col Hrow' Hcol.
    destruct (formatToBinaryData_lookup records columnOrder j row' col Hrow')
      as (newRow' & Hnew' & Hlook').
    exists newRow'. split; [done |].
    rewrite Hlook', decide_True by done. unfold formatToBinaryDataStep.
    destruct (index row' col) as [| | | | | | |str| | | | | | | | |]; cbn;
      rewrite ?lookup_insert_eq; try done.
    destruct (String.eqb col "time"); cbn; [| by rewrite lookup_insert_eq].
    destruct (time_Parse_RFC3339 str); cbn;
      by rewrite ?lookup_insert_eq, ?lookup_empty.
  - intros s raw table primaryKey timeout w Hbegin -> Hrecords.
    assert (raw ≠ []) as Hne.
    { intros ->. rewrite Hrecords in Hrow. discriminate Hrow. }
    destruct (InsertBulkData_run_steps s raw table primaryKey timeout w Hne Hbegin)
      as (rest & ret & Hrun & _).
    assert (stagedRows s raw =
            (λ newRow, index newRow <$> getColumns s raw)
              <$> (formatToBinaryData records (getColumns s raw)).1) as Hstaged.
    { unfold stagedRows. by rewrite Hrecords. }
    eexists _, (index newRow <$> getColumns s raw).
    split; [exact Hrun |]. cbn [trace committed].
    split; [|split; [|split; [|split]]].
    + apply elem_of_app. right. apply elem_of_app. left.
      apply elem_of_app. right. apply elem_of_app. left.
      apply list_elem_of_fmap. eexists. split; [reflexivity |].
      by rewrite <- Hrecords.
    + exact Hstaged.
    + by rewrite Hstaged, list_lookup_fmap, Hnew.
    + intros j Hj. rewrite list_lookup_fmap, Hj. cbn. unfold index.
      by rewrite Hnone.
    + by intros ->.
Qed.

End Transaction.

Lemma InsertBulkData_rollback_witness :
  [sample_row] ≠ [] ∧ Begin_err sample_script_copy_fails = None
  ∧ ∃ w' : World,
      @InsertBulkData sample_externals sample_script_copy_fails [sample_row]
        "trades" ["id"] 5000 sample_world =
      (Some (PgError "ERROR: value too long (SQLSTATE 22001)"), w')
      ∧ committed w' = [] ∧ txStatus w' = TxClosed.
Proof.
  assert ([sample_row] ≠ []) as Hne by discriminate.
  split; [exact Hne |]. split; [reflexivity |].
  destruct (@InsertBulkData_rollback sample_externals sample_script_copy_fails
              [sample_row] "trades" ["id"] 5000%Z sample_world Hne eq_refl)
    as (w' & steps & ret & Hrun & _ & Hst & Hkeep & _).
  exists w'. split; [exact Hrun |]. split; [|exact Hst].
  exact (Hkeep _ eq_refl).
Defined.

Lemma InsertBulkData_empty_witness :
  length ([] : list Row) = 0
  ∧ @InsertBulkData sample_externals sample_script_copy_fails [] "trades" ["id"]
      5000 sample_world = (None, sample_world).
Proof.
  split; [reflexivity |].
  destruct (@InsertBulkData_empty sample_externals sample_script_copy_fails []
              "trades" ["id"] 5000%Z sample_world eq_refl)
    as (w' & Hrun & -> & _).
  exact Hrun.
Defined.

Lemma time_parse_failure_not_fatal_witness :
  ∃ w' : World,
    @InsertBulkData sample_externals sample_script_ok
      [sample_row; sample_row_bad] "trades" ["id"] 5000 sample_world
    = (None, w')
    ∧ EvStdout ("Error parsing time: " +:+ "parsing time yesterday" +:+ newline)
        ∈ trace w'
    ∧ ∃ values : list Value,
        @stagedRows sample_externals sample_script_ok [sample_row; sample_row_bad]
          !! 1 = Some values
        ∧ values !! 3 = Some VNil.
Proof.
  assert ("time" ∈ getColumns sample_script_ok [sample_row; sample_row_bad])
    as Hin by (apply (list_elem_of_lookup_2 _ 3); reflexivity).
  assert (@formatTimestamps sample_externals [sample_row; sample_row_bad]
            (getColumns sample_script_ok [sample_row; sample_row_bad]) !! 1
          = Some (fold_left (@formatTimestampsStep sample_externals sample_row_bad)
                    (getColumns sample_script_ok [sample_row; sample_row_bad]) ∅))
    as Hrow by reflexivity.
  assert (index (fold_left (@formatTimestampsStep sample_externals sample_row_bad)
                   (getColumns sample_script_ok [sample_row; sample_row_bad]) ∅)
            "time" = VString "yesterday") as Hv by reflexivity.
  assert (@time_Parse_RFC3339 sample_externals "yesterday"
          = inr (errorString "parsing time yesterday")) as Herr by reflexivity.
  destruct (@time_parse_failure_not_fatal sample_externals _ _ 1 _
              "yesterday" (errorString "parsing time yesterday")
              Hrow Hin Hv Herr)
    as (_ & _ & _ & _ & Hcall).
  destruct (Hcall sample_script_ok [sample_row; sample_row_bad] "trades" ["id"]
              5000%Z sample_world eq_refl eq_refl eq_refl)
    as (w' & values & Hrun & Hlog & _ & Hstaged & Hnil & _).
  assert (firstError (@answers sample_externals sample_script_ok
                        [sample_row; sample_row_bad] "trades" ["id"]) = None)
    as Hnone by reflexivity.
  rewrite Hnone in Hrun.
  exists w'. split; [exact Hrun |]. split; [exact Hlog |].
  exists values. split; [exact Hstaged |]. exact (Hnil 3 eq_refl).
Defined.

(** ** The samples, run *)

Example insertStmt_sample :
  insertStmt "trades" ["id"; "val"; "time"] "temp_trades_0" ["id"] =
  "INSERT INTO trades (id, val, time) SELECT DISTINCT id, val, time FROM temp_trades_0 ON CONFLICT (id) DO UPDATE SET val = EXCLUDED.val, time = EXCLUDED.time".
Proof. reflexivity. Qed.

Example formatToBinaryData_sample :
  @formatToBinaryData sample_externals [sample_row_bad] ["id"; "time"; "val"] =
  ([<["id" := VInt32 2]>
      (<["val" := VText {| pgtype.Text_String := "b";
                           pgtype.Text_Status := pgtype.Present |}]> ∅)],
   ["Error parsing time: parsing time yesterday" +:+ newline]).
Proof. vm_compute. reflexivity. Qed.

Example InsertBulkData_commit_sample :
  (@InsertBulkData sample_externals sample_script_ok [sample_row] "trades" ["id"]
     5000 sample_world).1 = None
  ∧ length (committed
      (@InsertBulkData sample_externals sample_script_ok [sample_row] "trades"
         ["id"] 5000 sample_world).2) = 3
  ∧ last (trace
      (@InsertBulkData sample_externals sample_script_ok [sample_row] "trades"
         ["id"] 5000 sample_world).2) = Some EvCancel.
Proof. vm_compute. done. Qed.

Example InsertBulkData_copy_fails_sample :
  drop 4 (trace
    (@InsertBulkData sample_externals sample_script_copy_fails [sample_row_bad]
       "t" ["id"] 5000 sample_world).2) =
  [ EvCopyFrom "temp_t_123e4567e89b12d3a456426614174000" ["id"; "val"; "time"]
      [[VInt32 2;
        VText {| pgtype.Text_String := "b"; pgtype.Text_Status := pgtype.Present |};
        VNil]]
      (Some (PgError "ERROR: value too long (SQLSTATE 22001)"));
    EvLog "Error during COPY operation: ERROR: value too long (SQLSTATE 22001)";
    EvLog ("Error details:" +:+ newline
           +:+ "ERROR: value too long (SQLSTATE 22001)" +:+ newline);
    EvRollback None;
    EvCancel ].
Proof. vm_compute. reflexivity. Qed.

(** * Part III: further properties of the package *)

(** ** The merge statement, continued *)

(** X1: [contains] is membership: it answers true exactly for the items of
    the slice. *)
Theorem contains_iff (slice : list string) (item : string) :
  (contains slice item = true ↔ item ∈ slice)
  ∧ (contains slice item = false ↔ item ∉ slice).
Proof.
  split; [apply contains_spec |].
  rewrite <- contains_spec. by destruct (contains slice item).
Qed.

Lemma append_empty (s t : string) : s +:+ t = "" → s = "" ∧ t = "".
Proof. destruct s; [done | discriminate]. Qed.

Lemma Join_empty (l : list string) (sep : string) :
  Forall (λ x, x ≠ "") l → strings.Join l sep = "" → l = [].
Proof.
  intros Hall. destruct l as [|x [|y l]]; [done | |].
  - simpl. intros ->. by inversion Hall.
  - cbn [strings.Join]. intros [-> _]%append_empty. by inversion Hall.
Qed.

(** X2: the SET clause [buildUpdateValuesWithExcluded] returns is empty
    exactly when every column is a primary-key column. *)
Theorem buildUpdateValuesWithExcluded_empty (columns primaryKey : list string) :
  buildUpdateValuesWithExcluded columns primaryKey = ""
  ↔ ∀ col, col ∈ columns → col ∈ primaryKey.
Proof.
  unfold buildUpdateValuesWithExcluded. rewrite updateAssignmentsOf_filter.
  split.
  - intros Hjoin col Hcol.
    apply Join_empty in Hjoin.
    + apply fmap_nil_inv in Hjoin.
      destruct (decide (col ∈ primaryKey)) as [|Hnot]; [done |].
      assert (col ∈ filter (λ c, c ∉ primaryKey) columns) as Hin
        by (by apply list_elem_of_filter).
      rewrite Hjoin in Hin. by apply elem_of_nil in Hin.
    + apply Forall_fmap, Forall_forall. intros c _. unfold excludedAssignment.
      simpl. intros [_ Habs]%append_empty. discriminate Habs.
  - intros Hall.
    replace (filter (λ c, c ∉ primaryKey) columns) with (@nil string); [done |].
    symmetry. induction columns as [|c columns IH]; [done |].
    rewrite filter_cons_False by (intros Hc; apply Hc, Hall; by left).
    apply IH. intros col Hcol. apply Hall. by right.
Qed.

(** The clause [buildUpdateValues] builds from the primary key and the
    assignments is the tail of the statement of [InsertBulkData]. *)
Remark insertStmt_buildUpdateValues (table tempTable : string)
    (columns primaryKey : list string) :
  insertStmt table columns tempTable primaryKey =
  "INSERT INTO " +:+ table +:+ " (" +:+ strings.Join columns ", "
  +:+ ") SELECT DISTINCT " +:+ strings.Join columns ", "
  +:+ " FROM " +:+ tempTable +:+ " "
  +:+ buildUpdateValues primaryKey (updateAssignmentsOf columns primaryKey).
Proof. reflexivity. Qed.

(** ** The column set *)

Lemma fold_left_snoc (l acc : list string) :
  fold_left (λ columns column, columns ++ [column]) l acc = acc ++ l.
Proof.
  revert acc. induction l as [|x l IH]; intros acc; simpl.
  - by rewrite app_nil_r.
  - rewrite IH. by rewrite <- app_assoc.
Qed.

(** X3: when [range] visits every key of the first record once, the column
    set is the key set of the first record, without repetition: a key that
    only later records have is no column. No record gives no column. *)
Theorem getColumns_keys (s : Script) (first : Row) (rest : list Row) :
  rangeKeys s first ≡ₚ (map_to_list first).*1 →
  NoDup (getColumns s (first :: rest))
  ∧ (∀ col, col ∈ getColumns s (first :: rest) ↔ is_Some (first !! col))
  ∧ getColumns s [] = [].
Proof.
  intros Hperm. unfold getColumns. rewrite fold_left_snoc. simpl.
  split; [|split; [|done]].
  - rewrite Hperm. apply NoDup_fst_map_to_list.
  - intros col. rewrite Hperm. rewrite list_elem_of_fmap. split.
    + intros [[k v] [-> Hkv%elem_of_map_to_list]]. by exists v.
    + intros [v Hv]. exists (col, v). split; [done |].
      by apply elem_of_map_to_list.
Qed.

Lemma getColumns_keys_witness :
  rangeKeys sample_script_ok sample_row ≡ₚ (map_to_list sample_row).*1
  ∧ "val" ∈ getColumns sample_script_ok [sample_row; sample_row_bad].
Proof.
  assert (rangeKeys sample_script_ok sample_row ≡ₚ (map_to_list sample_row).*1)
    as Hperm by reflexivity.
  split; [exact Hperm |].
  apply (proj1 (proj2 (getColumns_keys sample_script_ok sample_row
                         [sample_row_bad] Hperm))).
  by exists (VString "10.5").
Defined.

(** ** The two passes of [InsertBulkData], one after the other *)

Section Pipeline.

Context `{!Externals}.

Lemma formatToBinaryDataStep_index (row row' : Row) (st : Row * list string)
    (col : string) :
  index row col = index row' col →
  formatToBinaryDataStep row st col = formatToBinaryDataStep row' st col.
Proof. intros Hidx. unfold formatToBinaryDataStep. by rewrite Hidx. Qed.

Lemma formatTimestamps_lookup (records : list Row) (cols : list string)
    (i : nat) (row : Row) :
  records !! i = Some row →
  formatTimestamps records cols !! i =
  Some (fold_left (formatTimestampsStep row) cols ∅).
Proof.
  intros Hrow. unfold formatTimestamps. by rewrite list_lookup_fmap, Hrow.
Qed.

(** What the two passes leave at a column of the column order: the main
    pass applied to what the stringify pass made of the field. *)
Lemma pipeline_lookup (records : list Row) (cols : list string)
    (i : nat) (row : Row) (col : string) :
  records !! i = Some row → col ∈ cols →
  ∃ newRow : Row,
    (formatToBinaryData (formatTimestamps records cols) cols).1 !! i = Some newRow
    ∧ newRow !! col =
        (formatToBinaryDataStep (formatTimestampsStep row ∅ col) (∅, []) col).1
          !! col.
Proof.
  intros Hrow Hcol.
  destruct (formatToBinaryData_lookup (formatTimestamps records cols) cols i
              _ col (formatTimestamps_lookup records cols i row Hrow))
    as (newRow & Hnew & Hlook).
  exists newRow. split; [done |].
  rewrite Hlook, decide_True by done.
  f_equal. f_equal. apply formatToBinaryDataStep_index.
  unfold index. by rewrite formatTimestamps_fold_lookup, decide_True.
Qed.

(** X4: in [InsertBulkData] a timestamp never reaches the main pass as a
    timestamp: outside the time column it is staged as text, the RFC3339
    string; in the time column it is staged as what parsing that string
    gives, and left out when the string does not parse. *)
Theorem pipeline_timestamp (records : list Row) (cols : list string)
    (i : nat) (row : Row) (col : string) (t : Time) :
  records !! i = Some row → col ∈ cols → index row col = VTime t →
  ∃ newRow : Row,
    (formatToBinaryData (formatTimestamps records cols) cols).1 !! i = Some newRow
    ∧ (col ≠ "time" →
       newRow !! col =
       Some (VText {| pgtype.Text_String := Time_Format_RFC3339 t;
                      pgtype.Text_Status := pgtype.Present |}))
    ∧ (col = "time" →
       newRow !! col =
       match time_Parse_RFC3339 (Time_Format_RFC3339 t) with
       | inl t' => Some (VTimestamptz {| pgtype.Timestamptz_Time := t';
                                         pgtype.Timestamptz_Status := pgtype.Present |})
       | inr _ => None
       end).
Proof.
  intros Hrow Hcol Ht.
  destruct (pipeline_lookup records cols i row col Hrow Hcol)
    as (newRow & Hnew & Hlook).
  exists newRow. split; [done |]. rewrite Hlook.
  unfold formatTimestampsStep. rewrite Ht.
  unfold formatToBinaryDataStep, index. rewrite lookup_insert_eq. cbn.
  split.
  - intros Hne%String.eqb_neq. rewrite Hne. cbn. by rewrite lookup_insert_eq.
  - intros ->. cbn.
    destruct (time_Parse_RFC3339 (Time_Format_RFC3339 t)); cbn;
      by rewrite ?lookup_insert_eq.
Qed.

(** X5: in [InsertBulkData] a string that parses as a float is staged as a
    present float8, whatever its column, the time column included. *)
Theorem pipeline_numeric_string (records : list Row) (cols : list string)
    (i : nat) (row : Row) (col : string) (v : string) (num : float64) :
  records !! i = Some row → col ∈ cols →
  index row col = VString v → strconv_ParseFloat v = inl num →
  ∃ newRow : Row,
    (formatToBinaryData (formatTimestamps records cols) cols).1 !! i = Some newRow
    ∧ newRow !! col =
        Some (VFloat8 {| pgtype.Float8_Float := num;
                         pgtype.Float8_Status := pgtype.Present |}).
Proof.
  intros Hrow Hcol Hv Hnum.
  destruct (pipeline_lookup records cols i row col Hrow Hcol)
    as (newRow & Hnew & Hlook).
  exists newRow. split; [done |]. rewrite Hlook.
  unfold formatTimestampsStep. rewrite Hv. cbn. rewrite Hnum.
  unfold formatToBinaryDataStep, index. rewrite lookup_insert_eq. cbn.
  by rewrite lookup_insert_eq.
Qed.

(** X6: the stringify pass gives every record exactly the keys of the
    column order: a key outside it is dropped, a column the record lacks
    becomes an explicit nil, and no timestamp is left in its output. *)
Theorem formatTimestamps_keys (records : list Row) (cols : list string)
    (i : nat) (row : Row) :
  records !! i = Some row →
  ∃ newRow : Row,
    formatTimestamps records cols !! i = Some newRow
    ∧ (∀ col, is_Some (newRow !! col) ↔ col ∈ cols)
    ∧ (∀ col, col ∈ cols → row !! col = None → newRow !! col = Some VNil)
    ∧ (∀ col t, newRow !! col ≠ Some (VTime t)).
Proof.
  intros Hrow. eexists. split; [by apply formatTimestamps_lookup |].
  assert (∀ col, col ∈ cols →
            ∃ v, formatTimestampsStep row ∅ col !! col = Some v
                 ∧ (∀ t, v ≠ VTime t)
                 ∧ (row !! col = None → v = VNil)) as Hstep.
  { intros col _. unfold formatTimestampsStep, index.
    destruct (row !! col) as [[]|] eqn:Hv; cbn;
      try (eexists; split; [apply lookup_insert_eq | by split]).
    destruct (strconv_ParseFloat s); cbn;
      (eexists; split; [apply lookup_insert_eq | by split]). }
  split; [|split].
  - intros col. rewrite formatTimestamps_fold_lookup.
    destruct (decide (col ∈ cols)) as [Hin | Hnin].
    + destruct (Hstep col Hin) as (v & -> & _). split; [done | by eexists].
    + rewrite lookup_empty. split; [by intros [? ?] | done].
  - intros col Hin Hnone. rewrite formatTimestamps_fold_lookup, decide_True by done.
    destruct (Hstep col Hin) as (v & -> & _ & Hnil). by rewrite Hnil.
  - intros col t. rewrite formatTimestamps_fold_lookup.
    destruct (decide (col ∈ cols)) as [Hin | Hnin].
    + destruct (Hstep col Hin) as (v & -> & Hno & _). intros [= ->]. by eapply Hno.
    + by rewrite lookup_empty.
Qed.

End Pipeline.

Lemma pipeline_timestamp_witness :
  ∃ newRow : Row,
    (@formatToBinaryData sample_externals
       (@formatTimestamps sample_externals
          [<["created" := VTime sample_time]> ∅] ["created"]) ["created"]).1 !! 0
    = Some newRow
    ∧ newRow !! "created" =
        Some (VText {| pgtype.Text_String := "2024-01-02T03:04:05Z";
                       pgtype.Text_Status := pgtype.Present |}).
Proof.
  assert ("created" ∈ ["created"]) as Hin by (by apply (bool_decide_unpack _)).
  assert (index (<["created" := VTime sample_time]> ∅) "created" = VTime sample_time)
    as Hidx by reflexivity.
  destruct (@pipeline_timestamp sample_externals
              [<["created" := VTime sample_time]> ∅] ["created"] 0
              (<["created" := VTime sample_time]> ∅) "created" sample_time
              eq_refl Hin Hidx)
    as (newRow & Hnew & Htext & _).
  exists newRow. split; [exact Hnew |].
  apply Htext. by apply (bool_decide_unpack _).
Defined.

Lemma pipeline_numeric_string_witness :
  ∃ newRow : Row,
    (@formatToBinaryData sample_externals
       (@formatTimestamps sample_externals
          [<["time" := VString "10.5"]> ∅] ["time"]) ["time"]).1 !! 0
    = Some newRow
    ∧ newRow !! "time" =
        Some (VFloat8 {| pgtype.Float8_Float := sample_float;
                         pgtype.Float8_Status := pgtype.Present |}).
Proof.
  assert ("time" ∈ ["time"]) as Hin by (by apply (bool_decide_unpack _)).
  assert (index (<["time" := VString "10.5"]> ∅) "time" = VString "10.5")
    as Hidx by reflexivity.
  exact (@pipeline_numeric_string sample_externals
           [<["time" := VString "10.5"]> ∅] ["time"] 0
           (<["time" := VString "10.5"]> ∅) "time" "10.5" sample_float
           eq_refl Hin Hidx eq_refl).
Defined.

Lemma formatTimestamps_keys_witness :
  ∃ newRow : Row,
    @formatTimestamps sample_externals [sample_row; sample_row_bad] sample_columns
      !! 1 = Some newRow
    ∧ newRow !! "seq" = Some VNil.
Proof.
  assert ("seq" ∈ sample_columns) as Hin by (by apply (bool_decide_unpack _)).
  destruct (@formatTimestamps_keys sample_externals [sample_row; sample_row_bad]
              sample_columns 1 sample_row_bad eq_refl)
    as (newRow & Hnew & _ & Hnil & _).
  exists newRow. split; [exact Hnew |]. apply Hnil; [exact Hin | reflexivity].
Defined.

(** ** What the cursor hands to [CopyFrom] *)

Section Staged.

Context `{!Externals}.

(** X7: the rows [CopyFrom] reads from the cursor [InsertBulkData] builds
    are one per record, in order, and each has one value per column of
    [getColumns], whatever keys the record itself has. *)
Theorem stagedRows_shape (s : Script) (records : list Row) :
  (readRows
     (length (data (newMapCopyFromSource
                      (formatToBinaryData
                         (formatTimestamps records (getColumns s records))
                         (getColumns s records)).1
                      (getColumns s records))))
     (newMapCopyFromSource
        (formatToBinaryData
           (formatTimestamps records (getColumns s records))
           (getColumns s records)).1
        (getColumns s records))).1
  = inl (stagedRows s records)
  ∧ length (stagedRows s records) = length records
  ∧ Forall (λ values, length values = length (getColumns s records))
      (stagedRows s records).
Proof.
  split; [apply readRows_new |]. unfold stagedRows. split.
  - rewrite length_fmap, formatToBinaryData_length. unfold formatTimestamps.
    by rewrite length_fmap.
  - apply Forall_fmap, Forall_forall. intros row _. cbn. by rewrite length_fmap.
Qed.

(** X8: a column of the first record that another record lacks goes to the
    server as nil for that record, and so does a time column whose string
    parses neither as a float nor as a timestamp. *)
Theorem stagedRows_nil (s : Script) (records : list Row) (i j : nat)
    (row : Row) (col : string) :
  records !! i = Some row → getColumns s records !! j = Some col →
  row !! col = None
  ∨ (col = "time"
     ∧ ∃ v e1 e2, row !! col = Some (VString v)
                  ∧ strconv_ParseFloat v = inr e1
                  ∧ time_Parse_RFC3339 v = inr e2) →
  ∃ values : list Value,
    stagedRows s records !! i = Some values ∧ values !! j = Some VNil.
Proof.
  intros Hrow Hcol Hcase.
  assert (col ∈ getColumns s records) as Hin by (by eapply list_elem_of_lookup_2).
  destruct (pipeline_lookup records (getColumns s records) i row col Hrow Hin)
    as (newRow & Hnew & Hlook).
  exists (index newRow <$> getColumns s records). split.
  { unfold stagedRows. by rewrite list_lookup_fmap, Hnew. }
  rewrite list_lookup_fmap, Hcol. cbn. f_equal.
  unfold index at 1. rewrite Hlook. clear Hlook.
  unfold formatTimestampsStep, index.
  destruct Hcase as [-> | (-> & v & e1 & e2 & -> & Hfloat & Htime)]; cbn.
  - unfold formatToBinaryDataStep, index. rewrite lookup_insert_eq. cbn.
    by rewrite lookup_insert_eq.
  - rewrite Hfloat. unfold formatToBinaryDataStep, index.
    rewrite lookup_insert_eq. cbn. by rewrite Htime.
Qed.

(** X9: when [Begin] fails, [InsertBulkData] returns that error having
    asked nothing else of the server: no statement, no copy, no rollback;
    the context is still cancelled, and the database and any transaction
    state are as before. *)
Theorem InsertBulkData_begin_fails (s : Script) (records : list Row)
    (table : string) (primaryKey : list string) (timeout : Z) (w : World)
    (err : error) :
  records ≠ [] → Begin_err s = Some err →
  ∃ w' : World,
    InsertBulkData s records table primaryKey timeout w = (Some err, w')
    ∧ committed w' = committed w
    ∧ txStatus w' = txStatus w
    ∧ txWrites w' = txWrites w
    ∧ trace w' =
        trace w ++ [EvWithTimeout timeout]
        ++ (EvStdout <$> (formatToBinaryData
                            (formatTimestamps records (getColumns s records))
                            (getColumns s records)).2)
        ++ [EvBegin (Some err); EvCancel].
Proof.
  intros Hdata Hbegin. destruct w as [c st tw tr].
  unfold InsertBulkData.
  rewrite bool_decide_eq_false_2 by (by destruct records).
  set (columns := getColumns s records).
  destruct (formatToBinaryData (formatTimestamps records columns) columns)
    as [coerced stdout] eqn:Hfmt.
  unfold defer, mbind, M_bind, mret, M_ret, emit.
  cbn [committed txStatus txWrites trace snd].
  rewrite printAll_run. cbn [committed txStatus txWrites trace].
  unfold Pool_Begin. rewrite Hbegin. cbn [committed txStatus txWrites trace].
  eexists. split; [reflexivity |]. cbn [committed txStatus txWrites trace].
  split; [done |]. split; [done |]. split; [done |].
  rewrite <- !app_assoc. reflexivity.
Qed.

End Staged.

Lemma stagedRows_nil_witness :
  ∃ values : list Value,
    @stagedRows sample_externals sample_script_ok [sample_row; sample_row_bad] !! 1
    = Some values
    ∧ values !! 3 = Some VNil.
Proof.
  assert (getColumns sample_script_ok [sample_row; sample_row_bad] !! 3 = Some "time")
    as Hcol by reflexivity.
  assert (sample_row_bad !! "time" = Some (VString "yesterday")) as Hv by reflexivity.
  apply (@stagedRows_nil sample_externals sample_script_ok
           [sample_row; sample_row_bad] 1 3 sample_row_bad "time" eq_refl Hcol).
  right. split; [reflexivity |].
  exists "yesterday", (errorString "invalid syntax"),
    (errorString "parsing time yesterday").
  split; [exact Hv |]. split; reflexivity.
Defined.

Lemma InsertBulkData_begin_fails_witness :
  ∃ w' : World,
    @InsertBulkData sample_externals
      {| uuid_New := uuid_sample_a;
         rangeKeys row := (map_to_list row).*1;
         Begin_err := Some (errorString "pool closed");
         Exec_err _ := None;
         CopyFrom_err _ _ _ := None;
         Commit_err := None;
         Rollback_err := None |}
      [sample_row] "trades" ["id"] 5000 sample_world
    = (Some (errorString "pool closed"), w')
    ∧ committed w' = [].
Proof.
  destruct (@InsertBulkData_begin_fails sample_externals
              {| uuid_New := uuid_sample_a;
                 rangeKeys row := (map_to_list row).*1;
                 Begin_err := Some (errorString "pool closed");
                 Exec_err _ := None;
                 CopyFrom_err _ _ _ := None;
                 Commit_err := None;
                 Rollback_err := None |}
              [sample_row] "trades" ["id"] 5000%Z sample_world
              (errorString "pool closed") ltac:(discriminate) eq_refl)
    as (w' & Hrun & Hcommitted & _).
  exists w'. split; [exact Hrun | exact Hcommitted].
Defined.

(** ** The reverse pass, and the two directions together *)

Section Native.

Context `{!Externals}.

Lemma formataToNativeTypeStep_untagged (col : string) (value v : Value) :
  (formataToNativeTypeStep col value (∅, [])).1 !! col = Some v →
  isTagged v = false.
Proof.
  destruct value as [| | | | | | | | | |x|x|x|x|x|x|name st]; cbn;
    try (rewrite lookup_insert_eq; by intros [= <-]).
  - destruct (pgtype.Timestamptz_Status x); cbn;
      rewrite ?lookup_insert_eq, ?lookup_empty; by intros [= <-].
  - destruct (pgtype.Float8_Status x); cbn;
      rewrite ?lookup_insert_eq, ?lookup_empty; by intros [= <-].
  - destruct (pgtype.Int4_Status x); cbn;
      rewrite ?lookup_insert_eq, ?lookup_empty; by intros [= <-].
  - destruct (pgtype.Bool_Status x); cbn;
      rewrite ?lookup_insert_eq, ?lookup_empty; by intros [= <-].
  - destruct (pgtype.Text_Status x); cbn;
      rewrite ?lookup_insert_eq, ?lookup_empty; by intros [= <-].
  - destruct (pgtype.Numeric_Status x); cbn;
      rewrite ?lookup_empty; try done.
    destruct (Numeric_Value x) as [decimalVal|]; cbn;
      rewrite ?lookup_empty; try done.
    destruct (decimal_NewFromString decimalVal); cbn;
      rewrite ?lookup_insert_eq, ?lookup_empty; by intros [= <-].
Qed.

Lemma formataToNativeTypeStep_fixed (col : string) (value : Value) :
  isTagged value = false →
  (formataToNativeTypeStep col value (∅, [])).1 !! col = Some value.
Proof. destruct value; cbn; try done; intros _; apply lookup_insert_eq. Qed.

Lemma formataToNativeType_Forall2 (records : list Row) :
  Forall2 nativeOf records (formataToNativeType records).1.
Proof.
  destruct (formataToNativeType_fold records [] []) as (rows & Hrows & Hall).
  unfold formataToNativeType. by rewrite Hrows.
Qed.

(** A record with no tagged value is a fixed point of the pass. *)
Lemma nativeOf_fixed (row newRow : Row) :
  nativeOf row newRow →
  (∀ k v, row !! k = Some v → isTagged v = false) →
  newRow = row.
Proof.
  intros Hnat Hrow. apply map_eq. intros k. rewrite (Hnat k).
  destruct (row !! k) as [v|] eqn:Hk; [|done].
  apply formataToNativeTypeStep_fixed. by eapply Hrow.
Qed.

Lemma nativeOf_untagged (row newRow : Row) (k : string) (v : Value) :
  nativeOf row newRow → newRow !! k = Some v → isTagged v = false.
Proof.
  intros Hnat. rewrite (Hnat k).
  destruct (row !! k) as [value|]; [|done].
  apply formataToNativeTypeStep_untagged.
Qed.

(** X10: no value [formataToNativeType] returns is of one of the six
    driver types its switch names; a value of any other type, a driver type
    that carries a [Status] included, is returned as it is, tag and all;
    and every key of a returned record is a key of the record it was built
    from. *)
Theorem formataToNativeType_untagged (records : list Row) (i : nat)
    (newRow : Row) (col : string) (v : Value) :
  (formataToNativeType records).1 !! i = Some newRow →
  newRow !! col = Some v →
  isTagged v = false
  ∧ ∃ row value,
      records !! i = Some row ∧ row !! col = Some value
      ∧ (isTagged value = false → v = value)
      ∧ (∀ name st, value = VPgOther name st → v = VPgOther name st).
Proof.
  intros Hnew Hv.
  destruct (Forall2_lookup_r _ _ _ _ _ (formataToNativeType_Forall2 records) Hnew)
    as (row & Hrow & Hnat).
  split; [by eapply nativeOf_untagged |].
  exists row. rewrite (Hnat col) in Hv.
  destruct (row !! col) as [value|]; [|done]. exists value.
  split; [done |]. split; [done |].
  assert (isTagged value = false → v = value) as Hfixed.
  { intros Htag. rewrite (formataToNativeTypeStep_fixed col value Htag) in Hv.
    by injection Hv. }
  split; [exact Hfixed |]. intros name st ->. by apply Hfixed.
Qed.

(** X11: [formataToNativeType] is idempotent on the records: applied to
    its own result it returns the same records. *)
Theorem formataToNativeType_idempotent (records : list Row) :
  (formataToNativeType (formataToNativeType records).1).1 =
  (formataToNativeType records).1.
Proof.
  pose proof (formataToNativeType_Forall2 records) as Hfirst.
  pose proof (formataToNativeType_Forall2 (formataToNativeType records).1) as Hsecond.
  revert Hfirst Hsecond.
  generalize (formataToNativeType (formataToNativeType records).1).1.
  generalize (formataToNativeType records).1.
  intros rows rows' Hfirst. revert rows'.
  induction Hfirst as [| row newRow records' rows Hnat _ IH];
    intros rows' Hsecond.
  - by inversion Hsecond.
  - inversion Hsecond as [| ? newRow' ? rows'' Hnat' Hrest]; subst.
    f_equal; [| by apply IH].
    apply nativeOf_fixed; [done |].
    intros k v. by apply nativeOf_untagged with (row := row).
Qed.

(** X12: what the reverse pass makes of what the main pass made of an
    untagged field: a timestamp, a float, a boolean, and a string outside
    the time column come back as they were; an [int] comes back as an
    [int32], wrapped to 32 bits; a string in the time column comes back as
    the parsed timestamp, or not at all. *)
Theorem formataToNativeType_formatToBinaryData (records : list Row)
    (columnOrder : list string) (i : nat) (row : Row) (col : string) :
  records !! i = Some row → col ∈ columnOrder →
  isTagged (index row col) = false →
  ∃ back : Row,
    (formataToNativeType (formatToBinaryData records columnOrder).1).1 !! i
    = Some back
    ∧ back !! col =
        match index row col with
        | VInt n => Some (VInt32 (int32 n))
        | VString v =>
            if String.eqb col "time" then
              match time_Parse_RFC3339 v with
              | inl t => Some (VTime t)
              | inr _ => None
              end
            else Some (VString v)
        | w => Some w
        end.
Proof.
  intros Hrow Hcol Htag.
  destruct (formatToBinaryData_lookup records columnOrder i row col Hrow)
    as (newRow & Hnew & Hlook).
  rewrite decide_True in Hlook by done.
  destruct (formataToNativeType_lookup _ i newRow Hnew) as (back & Hback & Hnat).
  exists back. split; [done |]. rewrite (Hnat col), Hlook. clear Hnat Hlook.
  unfold formatToBinaryDataStep.
  destruct (index row col) as [| | | | | | |v| | | | | | | | |] eqn:Hidx;
    try discriminate Htag; cbn;
    rewrite ?lookup_insert_eq; cbn; rewrite ?lookup_insert_eq; try done.
  destruct (String.eqb col "time"); cbn.
  - destruct (time_Parse_RFC3339 v); cbn;
      rewrite ?lookup_insert_eq, ?lookup_empty; cbn;
      by rewrite ?lookup_insert_eq.
  - rewrite lookup_insert_eq. cbn. by rewrite lookup_insert_eq.
Qed.

End Native.

Lemma formataToNativeType_untagged_witness :
  ∃ newRow : Row,
    (@formataToNativeType sample_externals [sample_fetched_other]).1 !! 0
    = Some newRow
    ∧ newRow !! "qty" = Some (VInt 3)
    ∧ isTagged (VInt 3) = false
    ∧ newRow !! "big" = Some (VPgOther "pgtype.Int8" pgtype.Null).
Proof.
  destruct (@formataToNativeType_lookup sample_externals [sample_fetched_other] 0
              sample_fetched_other eq_refl) as (newRow & Hnew & Hnat).
  assert (newRow !! "qty" = Some (VInt 3)) as Hqty by (by rewrite (Hnat "qty")).
  assert (newRow !! "big" = Some (VPgOther "pgtype.Int8" pgtype.Null)) as Hbig
    by (by rewrite (Hnat "big")).
  exists newRow. split; [exact Hnew |]. split; [exact Hqty |].
  split; [| exact Hbig].
  exact (proj1 (@formataToNativeType_untagged sample_externals
                  [sample_fetched_other] 0 newRow "qty" (VInt 3) Hnew Hqty)).
Defined.

Lemma formataToNativeType_formatToBinaryData_witness :
  ∃ back : Row,
    (@formataToNativeType sample_externals
       (@formatToBinaryData sample_externals [sample_row] sample_columns).1).1 !! 0
    = Some back
    ∧ back !! "id" = Some (VInt32 (int32 1)).
Proof.
  assert ("id" ∈ sample_columns) as Hin by (by apply (bool_decide_unpack _)).
  assert (isTagged (index sample_row "id") = false) as Htag by reflexivity.
  exact (@formataToNativeType_formatToBinaryData sample_externals [sample_row]
           sample_columns 0 sample_row "id" eq_refl Hin Htag).
Defined.

(** ** [FetchDataFromTable] *)

Section Fetch.

Context `{!Externals}.

Lemma scanRows_all (columns : list string) (scanned : list (list Value))
    (result : list Row) :
  scanRows columns (inl <$> scanned) result =
  inl (result ++ ((λ columnData, fillEntry 0 columns columnData ∅) <$> scanned)).
Proof.
  revert result. induction scanned as [| columnData scanned IH]; intros result.
  - cbn. by rewrite app_nil_r.
  - cbn [fmap list_fmap scanRows]. fold (@fmap list _ _ _ (@inl (list Value) error)).
    rewrite IH, <- app_assoc. reflexivity.
Qed.

Lemma scanRows_fails (columns : list string) (scanned : list (list Value))
    (err : error) (rest : list (list Value + error)) (result : list Row) :
  scanRows columns ((inl <$> scanned) ++ inr err :: rest) result = inr err.
Proof.
  revert result. induction scanned as [| columnData scanned IH]; intros result.
  - reflexivity.
  - cbn [fmap list_fmap app scanRows].
    fold (@fmap list _ _ _ (@inl (list Value) error)). apply IH.
Qed.

Lemma fillEntry_lookup_ne (i : nat) (columns : list string)
    (columnData : list Value) (entry : Row) (colName : string) :
  colName ∉ columns →
  fillEntry i columns columnData entry !! colName = entry !! colName.
Proof.
  revert i entry. induction columns as [| c columns IH]; intros i entry Hnin.
  - reflexivity.
  - apply not_elem_of_cons in Hnin as [Hne Hnin].
    cbn [fillEntry]. rewrite IH by done.
    destruct (default VNil (columnData !! i)); by rewrite lookup_insert_ne.
Qed.

Lemma fillEntry_lookup (i j : nat) (columns : list string)
    (columnData : list Value) (entry : Row) (colName : string) :
  NoDup columns → columns !! j = Some colName →
  fillEntry i columns columnData entry !! colName =
  Some match default VNil (columnData !! (i + j)) with
       | VBytes b => VString (string_of_list_byte b)
       | val => val
       end.
Proof.
  revert i j entry. induction columns as [| c columns IH];
    intros i j entry Hnodup Hj; [done |].
  apply NoDup_cons in Hnodup as [Hnin Hnodup].
  destruct j as [| j].
  - injection Hj as ->. cbn [fillEntry]. rewrite fillEntry_lookup_ne by done.
    rewrite Nat.add_0_r.
    destruct (default VNil (columnData !! i)); by rewrite lookup_insert_eq.
  - cbn [fillEntry]. rewrite (IH (S i) j) by done.
    by rewrite Nat.add_succ_r.
Qed.

(** X13: [FetchDataFromTable] releases the connection once, as its last
    call, on every path on which it acquired one, and closes the rows once,
    just before, on every path on which the query was accepted; when
    [Acquire] fails it returns that error and calls nothing else. *)
Theorem FetchDataFromTable_releases (f : FetchScript) (query : string) :
  match Acquire_err f with
  | Some err => FetchDataFromTable f query = (inr err, [FvAcquire (Some err)])
  | None =>
      ∃ steps : list FetchEvent,
        (FetchDataFromTable f query).2 = FvAcquire None :: (steps ++ [FvRelease])
        ∧ (FvRelease ∉ steps)
        ∧ match Query_err f query with
          | Some err =>
              (FetchDataFromTable f query).1 = inr err
              ∧ steps = [FvQuery query (Some err)]
          | None =>
              ∃ printed : list string,
                steps = FvQuery query None
                        :: ((FvStdout <$> printed) ++ [FvRowsClose])
          end
  end.
Proof.
  unfold FetchDataFromTable.
  destruct (Acquire_err f) as [err|]; [reflexivity |].
  destruct (Query_err f query) as [err|].
  { exists [FvQuery query (Some err)]. split; [reflexivity |].
    split; [| done]. intros Hin. apply elem_of_cons in Hin as [Heq | Hin].
    - discriminate Heq.
    - by apply elem_of_nil in Hin. }
  assert (∀ printed : list string,
            FvRelease ∉ FvQuery query None
                        :: ((FvStdout <$> printed) ++ [FvRowsClose])) as Hno.
  { intros printed Hin. apply elem_of_cons in Hin as [Heq | Hin].
    { discriminate Heq. }
    apply elem_of_app in Hin as [Hin | Hin].
    - apply list_elem_of_fmap in Hin as (line & Heq & _). discriminate Heq.
    - apply elem_of_cons in Hin as [Heq | Hin]; [discriminate Heq |].
      by apply elem_of_nil in Hin. }
  destruct (scanRows (FieldDescriptions f query) (scans f query) [])
    as [result | err].
  - destruct (formataToNativeType result) as [result' stdout].
    exists (FvQuery query None :: ((FvStdout <$> stdout) ++ [FvRowsClose])).
    split; [cbn; by rewrite <- app_assoc |]. split; [apply Hno | by exists stdout].
  - exists (FvQuery query None :: ((FvStdout <$> []) ++ [FvRowsClose])).
    split; [reflexivity |]. split; [apply Hno | by exists []].
Qed.

(** X14: when [Scan] fails on a row, [FetchDataFromTable] returns that
    error and no record, however many rows were scanned before it and
    whatever follows; the rows are closed and the connection released. *)
Theorem FetchDataFromTable_scan_fails (f : FetchScript) (query : string)
    (scanned : list (list Value)) (err : error)
    (rest : list (list Value + error)) :
  Acquire_err f = None → Query_err f query = None →
  scans f query = (inl <$> scanned) ++ inr err :: rest →
  FetchDataFromTable f query =
  (inr err, [FvAcquire None; FvQuery query None; FvRowsClose; FvRelease]).
Proof.
  intros Hacquire Hquery Hscans. unfold FetchDataFromTable.
  by rewrite Hacquire, Hquery, Hscans, scanRows_fails.
Qed.

(** X15: when every row scans, [FetchDataFromTable] returns one record
    per row, in order; with distinct column names, the field of a column
    is the value [Scan] left at its position, a [[]byte] turned into a
    string, and any other value as [formataToNativeType] unwraps it. *)
Theorem FetchDataFromTable_rows (f : FetchScript) (query : string)
    (scanned : list (list Value)) :
  Acquire_err f = None → Query_err f query = None →
  scans f query = inl <$> scanned →
  ∃ result : list Row,
    (FetchDataFromTable f query).1 = inl result
    ∧ length result = length scanned
    ∧ (NoDup (FieldDescriptions f query) →
       ∀ i j columnData colName,
         scanned !! i = Some columnData →
         FieldDescriptions f query !! j = Some colName →
         ∃ entry : Row,
           result !! i = Some entry
           ∧ entry !! colName =
               match default VNil (columnData !! j) with
               | VBytes b => Some (VString (string_of_list_byte b))
               | val => (formataToNativeTypeStep colName val (∅, [])).1 !! colName
               end).
Proof.
  intros Hacquire Hquery Hscans. unfold FetchDataFromTable.
  rewrite Hacquire, Hquery, Hscans, scanRows_all. cbn [app].
  set (columns := FieldDescriptions f query).
  set (entries := (λ columnData, fillEntry 0 columns columnData ∅) <$> scanned).
  pose proof (formataToNativeType_Forall2 entries) as Hall.
  destruct (formataToNativeType entries) as [result stdout]. cbn [fst] in *.
  exists result. split; [reflexivity |]. split.
  { rewrite <- (Forall2_length _ _ _ Hall). unfold entries. by rewrite length_fmap. }
  intros Hnodup i j columnData colName Hi Hj.
  assert (entries !! i = Some (fillEntry 0 columns columnData ∅)) as Hentry.
  { unfold entries. by rewrite list_lookup_fmap, Hi. }
  destruct (Forall2_lookup_l _ _ _ _ _ Hall Hentry) as (entry & Hres & Hnat).
  exists entry. split; [done |].
  rewrite (Hnat colName), (fillEntry_lookup 0 j) by done. cbn [Nat.add].
  destruct (default VNil (columnData !! j)); try reflexivity.
  cbn. apply lookup_insert_eq.
Qed.

End Fetch.

Lemma FetchDataFromTable_scan_fails_witness :
  @FetchDataFromTable sample_externals sample_fetch_scan_fails "SELECT name, qty FROM t"
  = (inr (errorString "can't scan into dest[1]"),
     [FvAcquire None; FvQuery "SELECT name, qty FROM t" None; FvRowsClose;
      FvRelease]).
Proof.
  exact (@FetchDataFromTable_scan_fails sample_externals sample_fetch_scan_fails
           "SELECT name, qty FROM t" [[VString "a"; VInt 1]]
           (errorString "can't scan into dest[1]") [] eq_refl eq_refl eq_refl).
Defined.

Lemma FetchDataFromTable_rows_witness :
  ∃ result : list Row,
    (@FetchDataFromTable sample_externals sample_fetch "SELECT name, qty FROM t").1
    = inl result
    ∧ length result = 2
    ∧ ∃ entry : Row,
        result !! 0 = Some entry ∧ entry !! "name" = Some (VString "ab").
Proof.
  destruct (@FetchDataFromTable_rows sample_externals sample_fetch
              "SELECT name, qty FROM t"
              [ [VBytes [Byte.x61; Byte.x62];
                 VInt4 {| pgtype.Int4_Int := 3;
                          pgtype.Int4_Status := pgtype.Present |}];
                [VString "c";
                 VInt4 {| pgtype.Int4_Int := 0;
                          pgtype.Int4_Status := pgtype.Null |}] ]
              eq_refl eq_refl eq_refl)
    as (result & Hres & Hlen & Hfield).
  exists result. split; [exact Hres |]. split; [exact Hlen |].
  assert (NoDup (FieldDescriptions sample_fetch "SELECT name, qty FROM t"))
    as Hnodup by (by apply (bool_decide_unpack _)).
  exact (Hfield Hnodup 0 0 _ "name" eq_refl eq_refl).
Defined.

(** ** [InitDB], the logger and the connection string *)

Lemma logLevelMapping_lookup (l : string) :
  logLevelMapping !! l =
  if decide (l = "debug") then Some pgx.LogLevelDebug
  else if decide (l = "info") then Some pgx.LogLevelInfo
  else if decide (l = "warn") then Some pgx.LogLevelWarn
  else if decide (l = "error") then Some pgx.LogLevelError
  else None.
Proof.
  unfold logLevelMapping.
  destruct (decide (l = "debug")) as [-> | ?]; [apply lookup_insert_eq |].
  rewrite lookup_insert_ne by done.
  destruct (decide (l = "info")) as [-> | ?]; [apply lookup_insert_eq |].
  rewrite lookup_insert_ne by done.
  destruct (decide (l = "warn")) as [-> | ?]; [apply lookup_insert_eq |].
  rewrite lookup_insert_ne by done.
  destruct (decide (l = "error")) as [-> | ?]; [apply lookup_insert_eq |].
  rewrite lookup_insert_ne by done. apply lookup_empty.
Qed.

(** X16: a failed [InitDB] tells which step failed, and what it does to
    the package variable [Pool] depends on the step: a connection string
    that does not parse leaves [Pool] as it was, a failed connect sets it
    to nil, whatever pool it held before. *)
Theorem InitDB_failure (i : InitScript) (config : DatabaseConfig)
    (Pool : option PoolHandle) (e : error) :
  (InitDB i config Pool).1 = Some e →
  (∃ err, ParseConfig_err i (buildConnString config) = Some err
          ∧ e = errorString ("error parsing connection string: " +:+ Error err)
          ∧ (InitDB i config Pool).2 = Pool)
  ∨ (∃ err, ParseConfig_err i (buildConnString config) = None
            ∧ ConnectConfig_err i (buildConnString config) = Some err
            ∧ e = errorString ("unable to connect to the database: " +:+ Error err)
            ∧ (InitDB i config Pool).2 = None).
Proof.
  unfold InitDB.
  destruct (ParseConfig_err i (buildConnString config)) as [err|].
  { intros [= <-]. left. by exists err. }
  destruct (ConnectConfig_err i (buildConnString config)) as [err|].
  { intros [= <-]. right. by exists err. }
  discriminate.
Qed.

Lemma InitDB_failure_witness :
  (InitDB sample_init_unreachable sample_config (Some sample_pool)).1
  = Some (errorString
            "unable to connect to the database: dial tcp: connection refused")
  ∧ (InitDB sample_init_unreachable sample_config (Some sample_pool)).2 = None.
Proof.
  split; [reflexivity |].
  destruct (InitDB_failure sample_init_unreachable sample_config
              (Some sample_pool) _ eq_refl)
    as [(err & Hparse & _) | (err & _ & _ & _ & Hpool)].
  - discriminate Hparse.
  - exact Hpool.
Defined.

(** X17: the pool a successful [InitDB] leaves in [Pool] was opened with
    the connection string of the configuration, and its logger has a
    threshold between error and debug: it prints every error-level message
    and no trace-level one, and a level name other than debug, info and
    warn gives the error threshold. *)
Theorem InitDB_logger (i : InitScript) (config : DatabaseConfig)
    (Pool : option PoolHandle) :
  (InitDB i config Pool).1 = None →
  ∃ p : PoolHandle,
    (InitDB i config Pool).2 = Some p
    ∧ pool_connString p = buildConnString config
    ∧ (pgx.LogLevelError ≤ CustomLogger_level (pool_logger p) ≤ pgx.LogLevelDebug)%Z
    ∧ (∀ msg fields,
         Log (pool_logger p) pgx.LogLevelTrace msg fields = []
         ∧ Log (pool_logger p) pgx.LogLevelError msg fields
           = [Printf_line pgx.LogLevelError msg fields])
    ∧ (LogLevel config ∉ ["debug"; "info"; "warn"] →
       CustomLogger_level (pool_logger p) = pgx.LogLevelError).
Proof.
  unfold InitDB.
  destruct (ParseConfig_err i (buildConnString config)); [discriminate |].
  destruct (ConnectConfig_err i (buildConnString config)); [discriminate |].
  intros _. eexists. split; [reflexivity |]. split; [reflexivity |].
  cbn [pool_logger CustomLogger_level]. rewrite logLevelMapping_lookup.
  unfold Log. cbn [CustomLogger_level].
  destruct (decide (LogLevel config = "debug")) as [Hl | ?];
    [| destruct (decide (LogLevel config = "info")) as [Hl | ?];
       [| destruct (decide (LogLevel config = "warn")) as [Hl | ?];
          [| destruct (decide (LogLevel config = "error")) as [Hl | ?]]]];
    (split; [done |]); (split; [done |]); try done;
    intros Hnin; exfalso; apply Hnin; rewrite Hl;
    by apply (bool_decide_unpack _).
Qed.

Lemma InitDB_logger_witness :
  ∃ p : PoolHandle,
    (InitDB {| ParseConfig_err _ := None; ConnectConfig_err _ := None |}
       sample_config None).2 = Some p
    ∧ CustomLogger_level (pool_logger p) = pgx.LogLevelError.
Proof.
  destruct (InitDB_logger {| ParseConfig_err _ := None; ConnectConfig_err _ := None |}
              sample_config None eq_refl)
    as (p & Hpool & _ & _ & _ & Hlevel).
  exists p. split; [exact Hpool |]. apply Hlevel.
  intros Hin. by apply (bool_decide_pack _) in Hin.
Defined.

(** X18: [buildConnString] writes the fields as they are, without quoting:
    a user name that holds a space and [password=] gives the same
    connection string as the shorter user name with the rest moved into
    the password. *)
Theorem buildConnString_unquoted (config : DatabaseConfig) (user rest : string) :
  buildConnString
    {| User := user +:+ " password=" +:+ rest; Password := Password config;
       Host := Host config; Port := Port config; DBName := DBName config;
       SSLMode := SSLMode config; LogLevel := LogLevel config;
       NATSURL := NATSURL config |}
  = buildConnString
      {| User := user; Password := rest +:+ " password=" +:+ Password config;
         Host := Host config; Port := Port config; DBName := DBName config;
         SSLMode := SSLMode config; LogLevel := LogLevel config;
         NATSURL := NATSURL config |}.
Proof.
  unfold buildConnString. cbn [User Password Host Port DBName SSLMode].
  f_equal. rewrite <- !append_assoc. reflexivity.
Qed.

(** ** [generateRandomNumber] *)

Lemma wrap64_small (z : Z) : (- 2 ^ 63 ≤ z < 2 ^ 63)%Z → wrap64 z = z.
Proof. intros Hz. unfold wrap64. rewrite Z.mod_small; lia. Qed.

(** X19: for a range that fits, [min ≤ max] with [max - min + 1] still an
    [int], [generateRandomNumber] returns a number of the range, whatever
    [Intn] draws. *)
Theorem generateRandomNumber_range (Intn : Z → Z) (min max : Z) :
  (- 2 ^ 63 ≤ min)%Z → (min ≤ max)%Z → (max < 2 ^ 63)%Z →
  (max - min < 2 ^ 63 - 1)%Z →
  (∀ n, (0 < n)%Z → (0 ≤ Intn n < n)%Z) →
  ∃ r : Z, generateRandomNumber Intn min max = Some r ∧ (min ≤ r ≤ max)%Z.
Proof.
  intros Hmin Hle Hmax Hfit Hdraw. unfold generateRandomNumber.
  rewrite (wrap64_small (max - min)) by lia.
  rewrite (wrap64_small (max - min + 1)) by lia.
  destruct (Z.leb_spec (max - min + 1) 0) as [Hn | Hn]; [lia |].
  specialize (Hdraw _ Hn).
  rewrite wrap64_small by lia.
  eexists. split; [reflexivity | lia].
Qed.

Lemma generateRandomNumber_range_witness :
  ∃ r : Z, generateRandomNumber (λ n, n - 1)%Z 1 6 = Some r ∧ (1 ≤ r ≤ 6)%Z.
Proof.
  apply (generateRandomNumber_range (λ n, n - 1)%Z 1 6); try lia.
Defined.

(** X20: [generateRandomNumber] panics, [Intn] being given a number that
    is not positive, exactly when [max] is below [min] by no more than
    [2 ^ 63 + 1], or the range is so wide that its size is no [int]; when
    [max] is further below [min] the subtraction wraps around and a number
    is returned. *)
Theorem generateRandomNumber_panics (Intn : Z → Z) (min max : Z) :
  (- 2 ^ 63 ≤ min < 2 ^ 63)%Z → (- 2 ^ 63 ≤ max < 2 ^ 63)%Z →
  generateRandomNumber Intn min max = None
  ↔ (max < min ∧ - 2 ^ 63 - 1 ≤ max - min)%Z ∨ (2 ^ 63 - 1 ≤ max - min)%Z.
Proof.
  intros Hmin Hmax. unfold generateRandomNumber, wrap64.
  change (2 ^ 63)%Z with 9223372036854775808%Z in *.
  change (2 ^ 64)%Z with 18446744073709551616%Z in *.
  destruct (Z.leb_spec
              ((((max - min + 9223372036854775808) mod 18446744073709551616
                 - 9223372036854775808) + 1 + 9223372036854775808)
                 mod 18446744073709551616 - 9223372036854775808) 0) as [Hn | Hn].
  - split; [intros _ | done].
    Z.div_mod_to_equations. lia.
  - split; [done |]. intros Hcase. exfalso.
    Z.div_mod_to_equations. lia.
Qed.

Lemma generateRandomNumber_panics_witness :
  generateRandomNumber (λ n, 0%Z) 5 1 = None.
Proof.
  apply (generateRandomNumber_panics (λ n, 0%Z) 5 1); lia.
Defined.
